(** * The cart state machine of Hydrogen's CartProvider

    A shallow embedding of [cartReducer]
    (packages/hydrogen/src/components/CartProvider/CartProvider.client.tsx)
    together with the properties of its transition table.

    The reducer is embedded twice.  [cartReducer] works on values: a state
    object is the JavaScript object the reducer reads and builds, a
    [status] string and the optional fields [cart], [lastValidCart] and
    [error]; the union type [State] of the TypeScript sources is a
    predicate on such objects ([well_typed]); a call completes by
    returning a state object or by throwing.  [Ref.cartReducer] works on
    references into a store of objects and arrays, where sharing and
    writes can be stated; [cartReducer_refines] relates the two. *)

From Stdlib Require Import ZArith List.
From stdpp Require Import base strings list gmap.
Import ListNotations.

Local Open Scope string_scope.

(** ** Data model *)

(** Modelled from the spec: the GraphQL [Attribute] type (a key and a
    value) is declared in graphql/types/types, which is not among the
    sources. *)
Definition Attribute : Type := string * string.

(** Modelled from the spec: the cart line of ./types and of the cart
    fragment (not among the sources).  The reducer reads [id] and writes
    [quantity]; the remaining fields are carried along.  [quantity] is a
    GraphQL [Int]. *)
Module CartLine.
Record t : Type := mk {
  id : string;
  quantity : Z;
  attributes : list Attribute;
  merchandise : string
}.

(** [{...line, quantity: q}] *)
Definition with_quantity (line : t) (q : Z) : t :=
  {| id := id line;
     quantity := q;
     attributes := attributes line;
     merchandise := merchandise line |}.
End CartLine.

(** Modelled from the spec: [CartLineUpdateInput] of graphql/types/types
    (not among the sources): an [id] and optional new values.  An absent
    (undefined or null) [quantity] is [None]. *)
Module CartLineUpdateInput.
Record t : Type := mk {
  id : string;
  quantity : option Z;
  merchandiseId : option string;
  attributes : option (list Attribute)
}.
End CartLineUpdateInput.

(** Modelled from the spec: the buyer identity fields of the cart
    fragment (not among the sources). *)
Module BuyerIdentity.
Record t : Type := mk {
  countryCode : option string;
  email : option string;
  phone : option string
}.
End BuyerIdentity.

(** Modelled from the spec: the [Cart] type of ./types (not among the
    sources): "identity, a list of line items, attributes, a note, and
    buyer identity fields". *)
Module Cart.
Record t : Type := mk {
  id : option string;
  lines : list CartLine.t;
  attributes : list Attribute;
  note : option string;
  buyerIdentity : option BuyerIdentity.t
}.

(** [{...cart, lines: ls}] *)
Definition with_lines (cart : t) (ls : list CartLine.t) : t :=
  {| id := id cart;
     lines := ls;
     attributes := attributes cart;
     note := note cart;
     buyerIdentity := buyerIdentity cart |}.
End Cart.

(** A state object as the reducer reads and builds it: an object literal
    that leaves a field out gives [None] for it. *)
Record State : Type := mkState {
  status : string;
  cart : option Cart.t;
  lastValidCart : option Cart.t;
  error : option string
}.

(** Modelled from the spec: the [CartAction] union of ./types (not among
    the sources); the constructors are the [type] tags the reducer switches
    on, with the payload it reads from each. *)
Inductive CartAction : Type :=
  | cartFetch
  | cartCreate
  | resolve (cart : Cart.t)
  | reject (error : string)
  | resetCart
  | addLineItem
  | removeLineItem (lines : list string)
  | updateLineItem (lines : list CartLineUpdateInput.t)
  | noteUpdate
  | buyerIdentityUpdate
  | cartAttributesUpdate
  | discountCodesUpdate.

(** [action.type] *)
Definition type (action : CartAction) : string :=
  match action with
  | cartFetch => "cartFetch"
  | cartCreate => "cartCreate"
  | resolve _ => "resolve"
  | reject _ => "reject"
  | resetCart => "resetCart"
  | addLineItem => "addLineItem"
  | removeLineItem _ => "removeLineItem"
  | updateLineItem _ => "updateLineItem"
  | noteUpdate => "noteUpdate"
  | buyerIdentityUpdate => "buyerIdentityUpdate"
  | cartAttributesUpdate => "cartAttributesUpdate"
  | discountCodesUpdate => "discountCodesUpdate"
  end.

(** What a call can throw: the [Error] of the reducer's last statement,
    or the engine's [TypeError] for a property read on [undefined]. *)
Inductive Exception : Type :=
  | Error (message : string)
  | TypeError.

Inductive Completion : Type :=
  | Return (state : State)
  | Throw (e : Exception).

(** ** Array methods used by the reducer *)

(** [Array.prototype.includes] on an array of strings. *)
Fixpoint includes (xs : list string) (x : string) : bool :=
  match xs with
  | [] => false
  | y :: ys => if String.eqb y x then true else includes ys x
  end.

(** The callback of [state.cart.lines.map] in the 'updateLineItem' case:
    [updatedLine && updatedLine.quantity] holds when [find] gave an element
    whose [quantity] is neither absent nor [0]. *)
Definition updateLine (updates : list CartLineUpdateInput.t)
    (line : CartLine.t) : CartLine.t :=
  let updatedLine :=
    List.find (fun u => String.eqb (CartLineUpdateInput.id u) (CartLine.id line))
      updates in
  match updatedLine with
  | Some u =>
      match CartLineUpdateInput.quantity u with
      | Some q => if negb (Z.eqb q 0) then CartLine.with_quantity line q else line
      | None => line
      end
  | None => line
  end.

(** ** The reducer *)

(** The [throw] statement that ends [cartReducer]. *)
Definition cannotDispatch (state : State) (action : CartAction) : Exception :=
  Error ("Cannot dispatch event (" +:+ type action +:+
         ") for current cart state (" +:+ status state +:+ ")").

(** The object literal [{status: 'updating', cart: c, lastValidCart: state.cart}]. *)
Definition updating (c : option Cart.t) (state : State) : State :=
  {| status := "updating"; cart := c; lastValidCart := cart state; error := None |}.

Definition cartReducer (state : State) (action : CartAction) : Completion :=
  match action with
  | cartFetch =>
      if String.eqb (status state) "uninitialized" then
        Return {| status := "fetching"; cart := None;
                  lastValidCart := None; error := None |}
      else Throw (cannotDispatch state action)
  | cartCreate =>
      if String.eqb (status state) "uninitialized" then
        Return {| status := "creating"; cart := None;
                  lastValidCart := None; error := None |}
      else Throw (cannotDispatch state action)
  | resolve c =>
      let resolvableStatuses := ["updating"; "fetching"; "creating"] in
      if includes resolvableStatuses (status state) then
        Return {| status := "idle"; cart := Some c;
                  lastValidCart := None; error := None |}
      else Throw (cannotDispatch state action)
  | reject e =>
      if String.eqb (status state) "fetching"
         || String.eqb (status state) "creating" then
        Return {| status := "uninitialized"; cart := None;
                  lastValidCart := None; error := Some e |}
      else if String.eqb (status state) "updating" then
        Return {| status := "idle"; cart := lastValidCart state;
                  lastValidCart := None; error := Some e |}
      else Throw (cannotDispatch state action)
  | resetCart =>
      if String.eqb (status state) "fetching" then
        Return {| status := "uninitialized"; cart := None;
                  lastValidCart := None; error := None |}
      else Throw (cannotDispatch state action)
  | addLineItem =>
      if String.eqb (status state) "idle" then
        Return (updating (cart state) state)
      else Throw (cannotDispatch state action)
  | removeLineItem ids =>
      if String.eqb (status state) "idle" then
        match cart state with
        | Some c =>
            Return (updating
              (Some (Cart.with_lines c
                 (List.filter (fun l => negb (includes ids (CartLine.id l)))
                    (Cart.lines c))))
              state)
        | None => Throw TypeError
        end
      else Throw (cannotDispatch state action)
  | updateLineItem updates =>
      if String.eqb (status state) "idle" then
        match cart state with
        | Some c =>
            Return (updating
              (Some (Cart.with_lines c
                 (List.map (updateLine updates) (Cart.lines c))))
              state)
        | None => Throw TypeError
        end
      else Throw (cannotDispatch state action)
  | noteUpdate =>
      if String.eqb (status state) "idle" then
        Return (updating (cart state) state)
      else Throw (cannotDispatch state action)
  | buyerIdentityUpdate =>
      if String.eqb (status state) "idle" then
        Return (updating (cart state) state)
      else Throw (cannotDispatch state action)
  | cartAttributesUpdate =>
      if String.eqb (status state) "idle" then
        Return (updating (cart state) state)
      else Throw (cannotDispatch state action)
  | discountCodesUpdate =>
      if String.eqb (status state) "idle" then
        Return (updating (cart state) state)
      else Throw (cannotDispatch state action)
  end.

(** ** The transition table and the typing of states *)

(** The five lifecycle phases. *)
Definition phases : list string :=
  ["uninitialized"; "fetching"; "creating"; "idle"; "updating"].

(** Modelled from the spec: the union type [State] of ./types (not among
    the sources), read structurally: the status is one of the five
    phases, an 'idle' state has a [cart], an 'updating' state has a [cart]
    and a [lastValidCart]. *)
Definition well_typed (s : State) : bool :=
  bool_decide (status s ∈ phases)
  && (if bool_decide (status s = "idle") then bool_decide (is_Some (cart s))
      else true)
  && (if bool_decide (status s = "updating") then
        bool_decide (is_Some (cart s)) && bool_decide (is_Some (lastValidCart s))
      else true).

(** The payload each phase carries: 'idle' a cart and possibly an error,
    'updating' a cart and a lastValidCart, 'fetching' and 'creating'
    nothing, 'uninitialized' at most an error. *)
Definition phase_payload (s : State) : bool :=
  if bool_decide (status s = "idle") then
    bool_decide (is_Some (cart s)) && bool_decide (lastValidCart s = None)
  else if bool_decide (status s = "updating") then
    bool_decide (is_Some (cart s)) && bool_decide (is_Some (lastValidCart s))
    && bool_decide (error s = None)
  else if bool_decide (status s = "fetching" ∨ status s = "creating") then
    bool_decide (cart s = None) && bool_decide (lastValidCart s = None)
    && bool_decide (error s = None)
  else if bool_decide (status s = "uninitialized") then
    bool_decide (cart s = None) && bool_decide (lastValidCart s = None)
  else false.

(** The seven mutating actions. *)
Definition mutating (a : CartAction) : bool :=
  match a with
  | addLineItem | removeLineItem _ | updateLineItem _ | noteUpdate
  | buyerIdentityUpdate | cartAttributesUpdate | discountCodesUpdate => true
  | _ => false
  end.

(** The documented table: which action is permitted in which phase. *)
Definition permitted (st : string) (a : CartAction) : bool :=
  match a with
  | cartFetch | cartCreate => bool_decide (st = "uninitialized")
  | resolve _ => bool_decide (st ∈ ["updating"; "fetching"; "creating"])
  | reject _ => bool_decide (st ∈ ["fetching"; "creating"; "updating"])
  | resetCart => bool_decide (st = "fetching")
  | addLineItem | removeLineItem _ | updateLineItem _ | noteUpdate
  | buyerIdentityUpdate | cartAttributesUpdate | discountCodesUpdate =>
      bool_decide (st = "idle")
  end.

(** Truthiness of an optional GraphQL [Int]: [undefined], [null] and [0]
    are falsy. *)
Definition truthy (q : option Z) : bool :=
  match q with
  | Some n => bool_decide (n ≠ 0%Z)
  | None => false
  end.


(** ** The reducer on references

    JavaScript objects and arrays are references into a store, and the
    state and the action are passed to [cartReducer] by reference.  The
    module [Ref] embeds the reducer at that level: cells of a store, a
    store-passing monad with allocation and reads, and the array methods
    with their callbacks.  An object literal is one allocation of the
    object with its properties in place. *)
Module Ref.

Definition loc : Type := positive.

(** A state object; its carts are references. *)
Record StateObj : Type := mkStateObj {
  status : string;
  cart : option loc;
  lastValidCart : option loc;
  error : option string
}.

(** A cart object; [lines] refers to an array of line objects. *)
Record CartObj : Type := mkCartObj {
  id : option string;
  lines : loc;
  attributes : list Attribute;
  note : option string;
  buyerIdentity : option BuyerIdentity.t
}.

(** An action object; the cart of 'resolve' and the arrays of
    'removeLineItem' and 'updateLineItem' are references. *)
Inductive ActionObj : Type :=
  | cartFetch
  | cartCreate
  | resolve (cart : loc)
  | reject (error : string)
  | resetCart
  | addLineItem
  | removeLineItem (lines : loc)
  | updateLineItem (lines : loc)
  | noteUpdate
  | buyerIdentityUpdate
  | cartAttributesUpdate
  | discountCodesUpdate.

Definition type (action : ActionObj) : string :=
  match action with
  | cartFetch => "cartFetch"
  | cartCreate => "cartCreate"
  | resolve _ => "resolve"
  | reject _ => "reject"
  | resetCart => "resetCart"
  | addLineItem => "addLineItem"
  | removeLineItem _ => "removeLineItem"
  | updateLineItem _ => "updateLineItem"
  | noteUpdate => "noteUpdate"
  | buyerIdentityUpdate => "buyerIdentityUpdate"
  | cartAttributesUpdate => "cartAttributesUpdate"
  | discountCodesUpdate => "discountCodesUpdate"
  end.

(** What a reference can point to. *)
Inductive Cell : Type :=
  | StateCell (s : StateObj)
  | CartCell (c : CartObj)
  | ArrayCell (elements : list loc)
  | StringsCell (elements : list string)
  | LineCell (line : CartLine.t)
  | UpdateCell (update : CartLineUpdateInput.t)
  | ActionCell (a : ActionObj)
  | ErrorCell (message : string).

Abbreviation store := (gmap loc Cell).

(** A thrown value: a reference to an [Error] object, or the engine's
    [TypeError]. *)
Inductive Thrown : Type :=
  | ThrownError (e : loc)
  | ThrownTypeError.

Inductive Outcome (A : Type) : Type :=
  | Normal (a : A)
  | Abrupt (t : Thrown).
Arguments Normal {A} a.
Arguments Abrupt {A} t.

(** Computations that read and extend the store and may throw. *)
Definition M (A : Type) : Type := store → Outcome A * store.

Definition ret {A : Type} (a : A) : M A := λ h, (Normal a, h).

Definition bind {A B : Type} (m : M A) (k : A → M B) : M B :=
  λ h, match m h with
       | (Normal a, h') => k a h'
       | (Abrupt t, h') => (Abrupt t, h')
       end.

Definition throw {A : Type} (t : Thrown) : M A := λ h, (Abrupt t, h).

(** A new object or array: a cell at a reference not yet in use. *)
Definition alloc (c : Cell) : M loc :=
  λ h, let l := fresh (dom h) in (Normal l, <[l:=c]> h).

(** A read through a reference. *)
Definition load (l : loc) : M Cell :=
  λ h, match h !! l with
       | Some c => (Normal c, h)
       | None => (Abrupt ThrownTypeError, h)
       end.

Declare Scope ref_scope.
Delimit Scope ref_scope with ref.
Notation "x <- m ;; k" := (bind m (λ x, k))
  (at level 100, m at next level, right associativity) : ref_scope.
Local Open Scope ref_scope.

Definition loadState (l : loc) : M StateObj :=
  c <- load l ;;
  match c with StateCell s => ret s | _ => throw ThrownTypeError end.

Definition loadCart (l : loc) : M CartObj :=
  c <- load l ;;
  match c with CartCell x => ret x | _ => throw ThrownTypeError end.

Definition loadArray (l : loc) : M (list loc) :=
  c <- load l ;;
  match c with ArrayCell xs => ret xs | _ => throw ThrownTypeError end.

Definition loadStrings (l : loc) : M (list string) :=
  c <- load l ;;
  match c with StringsCell xs => ret xs | _ => throw ThrownTypeError end.

Definition loadLine (l : loc) : M CartLine.t :=
  c <- load l ;;
  match c with LineCell x => ret x | _ => throw ThrownTypeError end.

Definition loadUpdate (l : loc) : M CartLineUpdateInput.t :=
  c <- load l ;;
  match c with UpdateCell x => ret x | _ => throw ThrownTypeError end.

Definition loadAction (l : loc) : M ActionObj :=
  c <- load l ;;
  match c with ActionCell x => ret x | _ => throw ThrownTypeError end.

(** [Array.prototype.filter]: the elements the callback accepts (the
    caller puts them in a new array). *)
Fixpoint filter (f : loc → M bool) (xs : list loc) : M (list loc) :=
  match xs with
  | [] => ret []
  | x :: xs' =>
      b <- f x ;;
      ys <- filter f xs' ;;
      ret (if b then x :: ys else ys)
  end.

(** [Array.prototype.map] *)
Fixpoint map (f : loc → M loc) (xs : list loc) : M (list loc) :=
  match xs with
  | [] => ret []
  | x :: xs' =>
      y <- f x ;;
      ys <- map f xs' ;;
      ret (y :: ys)
  end.

(** [Array.prototype.find]: the first element the callback accepts, or
    [undefined]. *)
Fixpoint find (f : loc → M bool) (xs : list loc) : M (option loc) :=
  match xs with
  | [] => ret None
  | x :: xs' =>
      b <- f x ;;
      if b then ret (Some x) else find f xs'
  end.

(** [throw new Error(`Cannot dispatch event (...) for current cart state (...)`)] *)
Definition cannotDispatch {A : Type} (state : StateObj) (action : ActionObj)
    : M A :=
  e <- alloc (ErrorCell ("Cannot dispatch event (" +:+ type action +:+
                         ") for current cart state (" +:+ status state +:+ ")")) ;;
  throw (ThrownError e).

(** [{status: 'updating', cart: c, lastValidCart: state.cart}] *)
Definition updating (c : option loc) (state : StateObj) : M loc :=
  alloc (StateCell {| status := "updating"; cart := c;
                      lastValidCart := cart state; error := None |}).

(** [({id}) => !action.lines.includes(id)] *)
Definition notRemoved (ids : loc) (l : loc) : M bool :=
  line <- loadLine l ;;
  xs <- loadStrings ids ;;
  ret (negb (includes xs (CartLine.id line))).

(** The callback of [map] in the 'updateLineItem' case: the line object
    itself, or a new line object with the quantity of the update. *)
Definition updateLine (updates : loc) (l : loc) : M loc :=
  line <- loadLine l ;;
  us <- loadArray updates ;;
  updatedLine <- find (λ u, x <- loadUpdate u ;;
                            ret (String.eqb (CartLineUpdateInput.id x)
                                            (CartLine.id line))) us ;;
  match updatedLine with
  | Some u =>
      x <- loadUpdate u ;;
      match CartLineUpdateInput.quantity x with
      | Some q =>
          if negb (Z.eqb q 0)
          then alloc (LineCell (CartLine.with_quantity line q))
          else ret l
      | None => ret l
      end
  | None => ret l
  end.

(** [{...cart, lines: ls}] with [ls] a new array. *)
Definition withLines (c : CartObj) (ls : list loc) : M loc :=
  arr <- alloc (ArrayCell ls) ;;
  alloc (CartCell {| id := id c; lines := arr; attributes := attributes c;
                     note := note c; buyerIdentity := buyerIdentity c |}).

Definition cartReducer (state action : loc) : M loc :=
  a <- loadAction action ;;
  s <- loadState state ;;
  match a with
  | cartFetch =>
      if String.eqb (status s) "uninitialized" then
        alloc (StateCell {| status := "fetching"; cart := None;
                            lastValidCart := None; error := None |})
      else cannotDispatch s a
  | cartCreate =>
      if String.eqb (status s) "uninitialized" then
        alloc (StateCell {| status := "creating"; cart := None;
                            lastValidCart := None; error := None |})
      else cannotDispatch s a
  | resolve c =>
      resolvableStatuses <-
        alloc (StringsCell ["updating"; "fetching"; "creating"]) ;;
      xs <- loadStrings resolvableStatuses ;;
      if includes xs (status s) then
        alloc (StateCell {| status := "idle"; cart := Some c;
                            lastValidCart := None; error := None |})
      else cannotDispatch s a
  | reject e =>
      if String.eqb (status s) "fetching"
         || String.eqb (status s) "creating" then
        alloc (StateCell {| status := "uninitialized"; cart := None;
                            lastValidCart := None; error := Some e |})
      else if String.eqb (status s) "updating" then
        alloc (StateCell {| status := "idle"; cart := lastValidCart s;
                            lastValidCart := None; error := Some e |})
      else cannotDispatch s a
  | resetCart =>
      if String.eqb (status s) "fetching" then
        alloc (StateCell {| status := "uninitialized"; cart := None;
                            lastValidCart := None; error := None |})
      else cannotDispatch s a
  | addLineItem =>
      if String.eqb (status s) "idle" then updating (cart s) s
      else cannotDispatch s a
  | removeLineItem ids =>
      if String.eqb (status s) "idle" then
        match cart s with
        | Some cl =>
            c <- loadCart cl ;;
            ls <- loadArray (lines c) ;;
            kept <- filter (notRemoved ids) ls ;;
            c' <- withLines c kept ;;
            updating (Some c') s
        | None => throw ThrownTypeError
        end
      else cannotDispatch s a
  | updateLineItem updates =>
      if String.eqb (status s) "idle" then
        match cart s with
        | Some cl =>
            c <- loadCart cl ;;
            ls <- loadArray (lines c) ;;
            mapped <- map (updateLine updates) ls ;;
            c' <- withLines c mapped ;;
            updating (Some c') s
        | None => throw ThrownTypeError
        end
      else cannotDispatch s a
  | noteUpdate =>
      if String.eqb (status s) "idle" then updating (cart s) s
      else cannotDispatch s a
  | buyerIdentityUpdate =>
      if String.eqb (status s) "idle" then updating (cart s) s
      else cannotDispatch s a
  | cartAttributesUpdate =>
      if String.eqb (status s) "idle" then updating (cart s) s
      else cannotDispatch s a
  | discountCodesUpdate =>
      if String.eqb (status s) "idle" then updating (cart s) s
      else cannotDispatch s a
  end.

End Ref.

(** ** The values a store holds

    Reading a reference all the way down gives the value of the object
    graph below it; [None] when the store does not hold such a graph. *)

Definition readLine (h : Ref.store) (l : Ref.loc) : option CartLine.t :=
  match h !! l with Some (Ref.LineCell x) => Some x | _ => None end.

Definition readLines (h : Ref.store) (l : Ref.loc) : option (list CartLine.t) :=
  match h !! l with
  | Some (Ref.ArrayCell xs) => mapM (readLine h) xs
  | _ => None
  end.

Definition readCart (h : Ref.store) (l : Ref.loc) : option Cart.t :=
  match h !! l with
  | Some (Ref.CartCell c) =>
      match readLines h (Ref.lines c) with
      | Some ls => Some (Cart.mk (Ref.id c) ls (Ref.attributes c) (Ref.note c)
                                 (Ref.buyerIdentity c))
      | None => None
      end
  | _ => None
  end.

Definition readOptCart (h : Ref.store) (o : option Ref.loc) : option (option Cart.t) :=
  match o with
  | Some l => match readCart h l with Some c => Some (Some c) | None => None end
  | None => Some None
  end.

Definition readState (h : Ref.store) (l : Ref.loc) : option State :=
  match h !! l with
  | Some (Ref.StateCell s) =>
      match readOptCart h (Ref.cart s), readOptCart h (Ref.lastValidCart s) with
      | Some c, Some lv => Some (mkState (Ref.status s) c lv (Ref.error s))
      | _, _ => None
      end
  | _ => None
  end.

Definition readStrings (h : Ref.store) (l : Ref.loc) : option (list string) :=
  match h !! l with Some (Ref.StringsCell xs) => Some xs | _ => None end.

Definition readUpdate (h : Ref.store) (l : Ref.loc) : option CartLineUpdateInput.t :=
  match h !! l with Some (Ref.UpdateCell x) => Some x | _ => None end.

Definition readUpdates (h : Ref.store) (l : Ref.loc)
    : option (list CartLineUpdateInput.t) :=
  match h !! l with
  | Some (Ref.ArrayCell xs) => mapM (readUpdate h) xs
  | _ => None
  end.

Definition readAction (h : Ref.store) (l : Ref.loc) : option CartAction :=
  match h !! l with
  | Some (Ref.ActionCell a) =>
      match a with
      | Ref.cartFetch => Some cartFetch
      | Ref.cartCreate => Some cartCreate
      | Ref.resolve c => resolve <$> readCart h c
      | Ref.reject e => Some (reject e)
      | Ref.resetCart => Some resetCart
      | Ref.addLineItem => Some addLineItem
      | Ref.removeLineItem ids => removeLineItem <$> readStrings h ids
      | Ref.updateLineItem us => updateLineItem <$> readUpdates h us
      | Ref.noteUpdate => Some noteUpdate
      | Ref.buyerIdentityUpdate => Some buyerIdentityUpdate
      | Ref.cartAttributesUpdate => Some cartAttributesUpdate
      | Ref.discountCodesUpdate => Some discountCodesUpdate
      end
  | _ => None
  end.

(** The value of a completed call. *)
Definition readOutcome (h : Ref.store) (r : Ref.Outcome Ref.loc) : option Completion :=
  match r with
  | Ref.Normal l => Return <$> readState h l
  | Ref.Abrupt (Ref.ThrownError e) =>
      match h !! e with
      | Some (Ref.ErrorCell m) => Some (Throw (Error m))
      | _ => None
      end
  | Ref.Abrupt Ref.ThrownTypeError => Some (Throw TypeError)
  end.


(** ** Sample carts, states and stores *)

Module Example.

Definition shirt : CartLine.t := CartLine.mk "line-1" 1 [] "shirt".
Definition socks : CartLine.t := CartLine.mk "line-2" 2 [("gift", "yes")] "socks".

Definition basket : Cart.t :=
  Cart.mk (Some "cart-1") [shirt; socks] [] (Some "ring twice") None.

Definition serverCart : Cart.t :=
  Cart.mk (Some "cart-1") [socks] [] None None.

Definition uninitialized : State := mkState "uninitialized" None None None.
Definition fetching : State := mkState "fetching" None None None.
Definition creating : State := mkState "creating" None None None.
Definition idle : State := mkState "idle" (Some basket) None None.
Definition pending : State :=
  mkState "updating" (Some serverCart) (Some basket) None.

(** Two updates for line-1, of which the first counts, and one for
    line-2 without a quantity. *)
Definition updates : list CartLineUpdateInput.t :=
  [CartLineUpdateInput.mk "line-1" (Some 3%Z) None None;
   CartLineUpdateInput.mk "line-1" (Some 0%Z) None None;
   CartLineUpdateInput.mk "line-2" None None None].

(** A store that holds [idle] at reference 5 and the action
    [removeLineItem ["line-1"]] at reference 7. *)
Definition store1 : Ref.store :=
  list_to_map
    [(1%positive, Ref.LineCell shirt);
     (2%positive, Ref.LineCell socks);
     (3%positive, Ref.ArrayCell [1%positive; 2%positive]);
     (4%positive, Ref.CartCell
        (Ref.mkCartObj (Some "cart-1") 3%positive [] (Some "ring twice") None));
     (5%positive, Ref.StateCell
        (Ref.mkStateObj "idle" (Some 4%positive) None None));
     (6%positive, Ref.StringsCell ["line-1"]);
     (7%positive, Ref.ActionCell (Ref.removeLineItem 6%positive))].

(** Another store with the same two values, at references 15 and 11. *)
Definition store2 : Ref.store :=
  list_to_map
    [(11%positive, Ref.ActionCell (Ref.removeLineItem 12%positive));
     (12%positive, Ref.StringsCell ["line-1"]);
     (13%positive, Ref.LineCell socks);
     (14%positive, Ref.LineCell shirt);
     (15%positive, Ref.StateCell
        (Ref.mkStateObj "idle" (Some 17%positive) None None));
     (16%positive, Ref.ArrayCell [14%positive; 13%positive]);
     (17%positive, Ref.CartCell
        (Ref.mkCartObj (Some "cart-1") 16%positive [] (Some "ring twice") None))].

End Example.

(** ** The provider component

    [CartProvider] keeps the state in [useReducer] and hands out callbacks
    that dispatch actions around one request to the Storefront API.  A
    callback is embedded as the process it runs: the effects it performs
    in order and, at its [await], the continuation that takes the
    response. *)

(** The parts of the GraphQL schema that the provider only passes on, and
    [flattenConnection] of ../../utilities/flattenConnection, are taken as
    parameters: none of them is among the sources. *)
Class Schema : Type := {
  Connection : Type;
  flattenConnection : Connection → list CartLine.t;
  CartInput : Type;
  CartLineInput : Type;
  CartBuyerIdentityInput : Type;
  Note : Type;
  DiscountCodes : Type
}.

(** A value of type [Maybe<T>] in an optional field: [null], [undefined]
    or a [T]. *)
Inductive Nullable (A : Type) : Type :=
  | Null
  | Undefined
  | Value (a : A).
Arguments Null {A}.
Arguments Undefined {A}.
Arguments Value {A} a.

(** [x ?? undefined] *)
Definition orUndefined {A : Type} (x : Nullable A) : option A :=
  match x with
  | Value a => Some a
  | Null | Undefined => None
  end.

(** Modelled from the spec: the cart fragment of ./graphql/CartFragment
    (not among the sources), the cart of a response: the fields of the
    cart with the lines as a connection and a nullable note. *)
Module CartFragment.
Record t {G : Schema} : Type := mk {
  id : string;
  lines : Connection;
  attributes : list Attribute;
  note : Nullable string;
  buyerIdentity : option BuyerIdentity.t
}.
End CartFragment.

(** [{...cart, lines: flattenConnection(cart.lines), note: cart.note ?? undefined}] *)
Definition cartFromGraphQL {G : Schema} (cart : CartFragment.t) : Cart.t :=
  {| Cart.id := Some (CartFragment.id cart);
     Cart.lines := flattenConnection (CartFragment.lines cart);
     Cart.attributes := CartFragment.attributes cart;
     Cart.note := orUndefined (CartFragment.note cart);
     Cart.buyerIdentity := CartFragment.buyerIdentity cart |}.

(** The properties of the component, without [children]; a callback
    property is [true] when it is given. *)
Module Props.
Record t {G : Schema} : Type := mk {
  numCartLines : option nat;
  onCreate : bool;
  onLineAdd : bool;
  onLineRemove : bool;
  onLineUpdate : bool;
  onNoteUpdate : bool;
  onBuyerIdentityUpdate : bool;
  onAttributesUpdate : bool;
  onDiscountCodesUpdate : bool;
  cart : option CartFragment.t
}.
End Props.

(** The query or mutation of a request with its variables; the documents
    are the constants of ../../graphql/graphql-constants. *)
Inductive Request {G : Schema} : Type :=
  | CartQuery (id : string) (numCartLines : option nat)
  | CartCreate (input : CartInput) (numCartLines : option nat)
  | CartLineAdd (cartId : option string) (lines : list CartLineInput)
      (numCartLines : option nat)
  | CartLineRemove (cartId : option string) (lines : list string)
      (numCartLines : option nat)
  | CartLineUpdate (cartId : option string)
      (lines : list CartLineUpdateInput.t) (numCartLines : option nat)
  | CartNoteUpdate (cartId : option string) (note : Note)
      (numCartLines : option nat)
  | CartBuyerIdentityUpdate (cartId : option string)
      (buyerIdentity : CartBuyerIdentityInput) (numCartLines : option nat)
  | CartAttributesUpdate (cartId : option string)
      (attributes : list Attribute) (numCartLines : option nat)
  | CartDiscountCodesUpdate (cartId : option string)
      (discountCodes : DiscountCodes) (numCartLines : option nat).

(** The [data] of a response: [{cart?}] for the cart query, and for a
    mutation an object with the mutation's field, which holds [{cart?}]. *)
Inductive Data {G : Schema} : Type :=
  | QueryData (cart : option CartFragment.t)
  | MutationData (payload : option (option CartFragment.t)).

(** What the awaited [fetch] gives: [data] and [error]; a falsy [error]
    is [None]. *)
Module Response.
Record t {G : Schema} : Type := mk {
  data : option Data;
  error : option string
}.
End Response.

(** [data?.cart] *)
Definition queryCart {G : Schema} (data : option Data) : option CartFragment.t :=
  match data with
  | Some (QueryData c) => c
  | _ => None
  end.

(** [data?.cartLinesAdd?.cart], and the same for the other mutations. *)
Definition mutationCart {G : Schema} (data : option Data)
    : option CartFragment.t :=
  match data with
  | Some (MutationData (Some c)) => c
  | _ => None
  end.

(** What a callback does: a call of [dispatch], a call of a callback
    property that is given (what the property does is outside), a request
    handed to [fetch], and the two writes to [localStorage] under
    [CART_ID_STORAGE_KEY]. *)
Inductive Event {G : Schema} : Type :=
  | Dispatch (action : CartAction)
  | Call (prop : string)
  | Send (request : Request)
  | RemoveItem
  | SetItem (value : string).

(** The run of a callback. *)
Inductive Proc {G : Schema} : Type :=
  | Done
  | Do (e : Event) (k : Proc)
  | Await (request : Request) (k : Response.t → Proc).

(** [callback?.()] *)
Definition optional {G : Schema} (given : bool) (prop : string) (k : Proc) : Proc :=
  if given then Do (Call prop) k else k.

(** The events of a run on a network that answers each request with a
    response; a request whose promise rejects is outside. *)
Fixpoint events {G : Schema} (p : Proc) (fetch : Request → Response.t)
    : list Event :=
  match p with
  | Done => []
  | Do e k => e :: events k fetch
  | Await request k => Send request :: events (k (fetch request)) fetch
  end.

(** What a run does before its first [await]: the part of the callback
    that runs to its end when it is called. *)
Fixpoint synchronous {G : Schema} (p : Proc) : list Event :=
  match p with
  | Done => []
  | Do e k => e :: synchronous k
  | Await request _ => [Send request]
  end.

(** The actions among the events, in order. *)
Fixpoint dispatched {G : Schema} (es : list Event) : list CartAction :=
  match es with
  | [] => []
  | Dispatch a :: es' => a :: dispatched es'
  | _ :: es' => dispatched es'
  end.


(** [useReducer((state, dispatch) => cartReducer(state, dispatch), ...)]:
    the reducer is applied to the dispatched actions in order; when it
    throws, the error is what is left. *)
Fixpoint dispatchAll (state : State) (actions : list CartAction) : Completion :=
  match actions with
  | [] => Return state
  | a :: rest =>
      match cartReducer state a with
      | Return state' => dispatchAll state' rest
      | Throw e => Throw e
      end
  end.

(** The data of the context value; its callbacks are [cartCreate] and the
    seven mutating callbacks applied to the state of the render. *)
Module CartContext.
Record t : Type := mk {
  id : option string;
  lines : list CartLine.t;
  attributes : list Attribute;
  note : option string;
  buyerIdentity : option BuyerIdentity.t;
  status : string;
  error : option string
}.
End CartContext.

(** A call of one of the seven mutating entries of the context value,
    with its argument. *)
Module Entry.
Inductive t {G : Schema} : Type :=
  | linesAdd (lines : list CartLineInput)
  | linesRemove (lines : list string)
  | linesUpdate (lines : list CartLineUpdateInput.t)
  | noteUpdate (note : Note)
  | buyerIdentityUpdate (buyerIdentity : CartBuyerIdentityInput)
  | cartAttributesUpdate (attributes : list Attribute)
  | discountCodesUpdate (discountCodes : DiscountCodes).
End Entry.

Module CartProvider.
Section Component.
Context {G : Schema} (props : Props.t).

(** [cart ? {status: 'idle', cart: cartFromGraphQL(cart)} : {status: 'uninitialized'}] *)
Definition initialStatus : State :=
  match Props.cart props with
  | Some c => {| status := "idle"; cart := Some (cartFromGraphQL c);
                 lastValidCart := None; error := None |}
  | None => {| status := "uninitialized"; cart := None;
               lastValidCart := None; error := None |}
  end.

(** What follows the [await] in [cartCreate] and in the seven mutating
    callbacks: [if (error) dispatch reject], then
    [if (data?.x?.cart) dispatch resolve]; [stored] is the
    [localStorage.setItem] of [cartCreate]. *)
Definition settle (stored : bool) (r : Response.t) : Proc :=
  let resolved :=
    match mutationCart (Response.data r) with
    | Some c =>
        Do (Dispatch (resolve (cartFromGraphQL c)))
          (if stored then Do (SetItem (CartFragment.id c)) Done else Done)
    | None => Done
    end in
  match Response.error r with
  | Some e => Do (Dispatch (reject e)) resolved
  | None => resolved
  end.

Definition cartFetch (cartId : string) : Proc :=
  Do (Dispatch cartFetch)
    (Await (CartQuery cartId (Props.numCartLines props))
       (λ r,
          match queryCart (Response.data r) with
          | None => Do RemoveItem (Do (Dispatch resetCart) Done)
          | Some c => Do (Dispatch (resolve (cartFromGraphQL c))) Done
          end)).

Definition cartCreate (cart : CartInput) : Proc :=
  Do (Dispatch cartCreate)
    (optional (Props.onCreate props) "onCreate"
       (Await (CartCreate cart (Props.numCartLines props)) (settle true))).

(** The body of a mutating callback after its dispatch and its callback
    property: the variables read [state.cart.id], which throws when the
    state has no cart, and the request follows. *)
Definition request (state : State) (mk : option string → Request) : Proc :=
  match cart state with
  | Some c => Await (mk (Cart.id c)) (settle false)
  | None => Done
  end.

Definition addLineItem (lines : list CartLineInput) (state : State) : Proc :=
  if String.eqb (status state) "idle" then
    Do (Dispatch addLineItem)
      (optional (Props.onLineAdd props) "onLineAdd"
         (request state
            (λ cartId, CartLineAdd cartId lines (Props.numCartLines props))))
  else Done.

Definition removeLineItem (lines : list string) (state : State) : Proc :=
  if String.eqb (status state) "idle" then
    Do (Dispatch (removeLineItem lines))
      (optional (Props.onLineRemove props) "onLineRemove"
         (request state
            (λ cartId, CartLineRemove cartId lines (Props.numCartLines props))))
  else Done.

Definition updateLineItem (lines : list CartLineUpdateInput.t) (state : State)
    : Proc :=
  if String.eqb (status state) "idle" then
    Do (Dispatch (updateLineItem lines))
      (optional (Props.onLineUpdate props) "onLineUpdate"
         (request state
            (λ cartId, CartLineUpdate cartId lines (Props.numCartLines props))))
  else Done.

Definition noteUpdate (note : Note) (state : State) : Proc :=
  if String.eqb (status state) "idle" then
    Do (Dispatch noteUpdate)
      (optional (Props.onNoteUpdate props) "onNoteUpdate"
         (request state
            (λ cartId, CartNoteUpdate cartId note (Props.numCartLines props))))
  else Done.

Definition buyerIdentityUpdate (buyerIdentity : CartBuyerIdentityInput)
    (state : State) : Proc :=
  if String.eqb (status state) "idle" then
    Do (Dispatch buyerIdentityUpdate)
      (optional (Props.onBuyerIdentityUpdate props) "onBuyerIdentityUpdate"
         (request state
            (λ cartId, CartBuyerIdentityUpdate cartId buyerIdentity
                         (Props.numCartLines props))))
  else Done.

Definition cartAttributesUpdate (attributes : list Attribute) (state : State)
    : Proc :=
  if String.eqb (status state) "idle" then
    Do (Dispatch cartAttributesUpdate)
      (optional (Props.onAttributesUpdate props) "onAttributesUpdate"
         (request state
            (λ cartId, CartAttributesUpdate cartId attributes
                         (Props.numCartLines props))))
  else Done.

Definition discountCodesUpdate (discountCodes : DiscountCodes) (state : State)
    : Proc :=
  if String.eqb (status state) "idle" then
    Do (Dispatch discountCodesUpdate)
      (optional (Props.onDiscountCodesUpdate props) "onDiscountCodesUpdate"
         (request state
            (λ cartId, CartDiscountCodesUpdate cartId discountCodes
                         (Props.numCartLines props))))
  else Done.

(** The effect that fetches the stored cart, with [item] the value of
    [localStorage.getItem(CART_ID_STORAGE_KEY)] ([null] and the empty
    string are falsy): the new value of [didFetchCart.current] and, when
    the effect calls [cartFetch], the id it passes. *)
Definition useEffect (item : option string) (state : State)
    (didFetchCart : bool) : bool * option string :=
  match item with
  | Some cartId =>
      if negb (String.eqb cartId "")
         && String.eqb (status state) "uninitialized"
         && negb didFetchCart
      then (true, Some cartId)
      else (didFetchCart, None)
  | None => (didFetchCart, None)
  end.

(** The effect over the renders of one provider, each with the stored
    item and the state it sees; [didFetchCart] lives across renders. *)
Fixpoint renders (runs : list (option string * State)) (didFetchCart : bool)
    : list (option string) :=
  match runs with
  | [] => []
  | (item, state) :: rest =>
      let '(flag, started) := useEffect item state didFetchCart in
      started :: renders rest flag
  end.


(** The mutating entries of [cartContextValue]: each passes its argument
    and the state of the render to its callback. *)
Definition call (state : State) (entry : Entry.t) : Proc :=
  match entry with
  | Entry.linesAdd lines => addLineItem lines state
  | Entry.linesRemove lines => removeLineItem lines state
  | Entry.linesUpdate lines => updateLineItem lines state
  | Entry.noteUpdate note => noteUpdate note state
  | Entry.buyerIdentityUpdate buyerIdentity =>
      buyerIdentityUpdate buyerIdentity state
  | Entry.cartAttributesUpdate attributes =>
      cartAttributesUpdate attributes state
  | Entry.discountCodesUpdate discountCodes =>
      discountCodesUpdate discountCodes state
  end.

End Component.
End CartProvider.

(** ** A sample schema, properties and responses *)

Module ProviderExample.

(** Connections are lists of lines; the inputs are plain strings. *)
Definition schema : Schema :=
  {| Connection := list CartLine.t;
     flattenConnection := λ c, c;
     CartInput := string;
     CartLineInput := string;
     CartBuyerIdentityInput := string;
     Note := string;
     DiscountCodes := list string |}.

Definition fragment : @CartFragment.t schema :=
  @CartFragment.mk schema "cart-1" [Example.socks] [] Null None.

Definition props : @Props.t schema :=
  @Props.mk schema (Some 10) true true true true true true true true None.

Definition seeded : @Props.t schema :=
  @Props.mk schema None false false false false false false false false
    (Some fragment).

Definition failure : @Response.t schema :=
  @Response.mk schema None (Some "throttled").

Definition success : @Response.t schema :=
  @Response.mk schema (Some (MutationData (Some (Some fragment)))) None.

Definition partial : @Response.t schema :=
  @Response.mk schema (Some (MutationData (Some (Some fragment))))
    (Some "throttled").

Definition userErrors : @Response.t schema :=
  @Response.mk schema (Some (MutationData (Some None))) None.

Definition found : @Response.t schema :=
  @Response.mk schema (Some (QueryData (Some fragment))) None.

Definition missing : @Response.t schema :=
  @Response.mk schema (Some (QueryData None)) (Some "not found").

(** The basket with [Example.updates] applied, and an 'idle' state that
    holds it. *)
Definition restocked : Cart.t :=
  Cart.with_lines Example.basket
    (List.map (updateLine Example.updates) (Cart.lines Example.basket)).

Definition confirmed : State := mkState "idle" (Some restocked) None None.

Definition addVariant : @Entry.t schema :=
  @Entry.linesAdd schema ["variant-7"].

Definition leaveNote : @Entry.t schema :=
  @Entry.noteUpdate schema "leave at the door".

Definition newCart : @CartInput schema := "one shirt".

End ProviderExample.
(** ** Proof support *)

Lemma includes_elem_of (xs : list string) (x : string) :
  includes xs x = true ↔ x ∈ xs.
Proof.
  induction xs as [|y ys IH]; simpl.
  - split; [discriminate | intros H; inversion H].
  - destruct (String.eqb_spec y x) as [->|Hne].
    + split; [intros _; left | reflexivity].
    + rewrite IH. split; [intros H; now right|].
      intros H. inversion H; subst; [congruence | assumption].
Qed.

Lemma includes_not_elem_of (xs : list string) (x : string) :
  includes xs x = false ↔ x ∉ xs.
Proof.
  rewrite <- includes_elem_of. destruct (includes xs x); split; congruence.
Qed.

(** Turns the boolean tests of the table into propositions. *)
Ltac unbool :=
  repeat match goal with
    | H : bool_decide _ = true |- _ => apply bool_decide_eq_true in H
    | H : bool_decide _ = false |- _ => apply bool_decide_eq_false in H
    | H : _ && _ = true |- _ => apply andb_true_iff in H; destruct H
    | H : _ ∈ _ :: _ |- _ => apply elem_of_cons in H; destruct H
    | H : _ ∈ [] |- _ => apply elem_of_nil in H; destruct H
    end.

(** An 'idle' or 'updating' state of type [State] has a cart. *)
Lemma well_typed_idle (s : State) :
  well_typed s = true → status s = "idle" → is_Some (cart s).
Proof.
  unfold well_typed. intros H Hst. rewrite Hst in H. simpl in H.
  unbool. assumption.
Qed.

Lemma well_typed_updating (s : State) :
  well_typed s = true → status s = "updating" →
  is_Some (cart s) ∧ is_Some (lastValidCart s).
Proof.
  unfold well_typed. intros H Hst. rewrite Hst in H. simpl in H.
  unbool. split; assumption.
Qed.

(** ** The transition table *)

(** C1: a pair the table does not permit makes [cartReducer] throw the
    error "Cannot dispatch event (<action type>) for current cart state
    (<status>)"; for a permitted pair, on a state of type [State], it
    returns a state. *)
Theorem cartReducer_table (s : State) (a : CartAction) :
  (permitted (status s) a = false →
     cartReducer s a =
       Throw (Error ("Cannot dispatch event (" +:+ type a +:+
                     ") for current cart state (" +:+ status s +:+ ")")))
  ∧ (permitted (status s) a = true → well_typed s = true →
     ∃ s', cartReducer s a = Return s').
Proof.
  split.
  - intros Hp. destruct a; simpl in Hp; unbool; unfold cartReducer;
      fold (cannotDispatch s);
      try (destruct (String.eqb_spec (status s) "uninitialized"); [contradiction|reflexivity]);
      try (destruct (String.eqb_spec (status s) "idle"); [contradiction|reflexivity]).
    + destruct (includes _ (status s)) eqn:Hi; [|reflexivity].
      apply includes_elem_of in Hi. contradiction.
    + destruct (String.eqb_spec (status s) "fetching") as [e|_];
        [exfalso; apply Hp; rewrite e; repeat constructor|].
      destruct (String.eqb_spec (status s) "creating") as [e|_];
        [exfalso; apply Hp; rewrite e; repeat constructor|].
      destruct (String.eqb_spec (status s) "updating") as [e|_];
        [exfalso; apply Hp; rewrite e; repeat constructor|]. reflexivity.
    + destruct (String.eqb_spec (status s) "fetching"); [contradiction|reflexivity].
  - intros Hp Hty.
    destruct a; simpl in Hp; apply bool_decide_eq_true in Hp;
      unfold cartReducer;
      try (rewrite Hp; simpl; eauto; fail).
    + (* resolve *)
      apply includes_elem_of in Hp. rewrite Hp. eauto.
    + (* reject *)
      unbool; subst; match goal with H : status s = _ |- _ => rewrite H end;
        simpl; eauto.
    + (* removeLineItem *)
      destruct (well_typed_idle s Hty Hp) as [c Hc]. rewrite Hp, Hc. simpl. eauto.
    + (* updateLineItem *)
      destruct (well_typed_idle s Hty Hp) as [c Hc]. rewrite Hp, Hc. simpl. eauto.
Qed.

(** C2: in an 'updating' state a 'reject' action returns (it does not
    throw) an 'idle' state whose cart is the updating state's
    [lastValidCart] and whose error is the action's error; on a state of
    type [State] that cart is present. *)
Theorem reject_while_updating (s : State) (e : string)
    (Hst : status s = "updating") :
  ∃ s', cartReducer s (reject e) = Return s'
        ∧ status s' = "idle"
        ∧ cart s' = lastValidCart s
        ∧ error s' = Some e
        ∧ (well_typed s = true → is_Some (cart s')).
Proof.
  unfold cartReducer. rewrite Hst. simpl.
  eexists. split; [reflexivity|]. simpl. repeat split.
  intros Hty. apply (well_typed_updating s Hty Hst).
Qed.

(** In an 'idle' state of type [State] a mutating action returns. *)
Lemma mutating_idle_returns (s : State) (a : CartAction) :
  well_typed s = true → status s = "idle" → mutating a = true →
  ∃ c c', cartReducer s a = Return (updating c' s) ∧ cart s = Some c.
Proof.
  intros Hty Hst Ha.
  destruct (well_typed_idle s Hty Hst) as [c Hc].
  exists c.
  destruct a; try discriminate Ha; unfold cartReducer;
    rewrite Hst; simpl; rewrite ?Hc; eauto.
Qed.

(** C3: in an 'idle' state each of the seven mutating actions returns an
    'updating' state whose [lastValidCart] is the idle state's cart. *)
Theorem mutating_from_idle (s : State) (a : CartAction)
    (Hty : well_typed s = true) (Hst : status s = "idle")
    (Ha : mutating a = true) :
  ∃ s' c, cartReducer s a = Return s'
          ∧ status s' = "updating"
          ∧ cart s = Some c
          ∧ lastValidCart s' = Some c.
Proof.
  destruct (mutating_idle_returns s a Hty Hst Ha) as (c & c' & Hr & Hc).
  exists (updating c' s), c. simpl. auto.
Qed.

(** C4: in an 'updating', 'fetching' or 'creating' state a 'resolve'
    action returns an 'idle' state whose cart is the action's cart, with
    neither an error nor a lastValidCart. *)
Theorem resolve_replaces_cart (s : State) (c : Cart.t)
    (Hst : status s ∈ ["updating"; "fetching"; "creating"]) :
  ∃ s', cartReducer s (resolve c) = Return s'
        ∧ status s' = "idle"
        ∧ cart s' = Some c
        ∧ error s' = None
        ∧ lastValidCart s' = None.
Proof.
  unfold cartReducer. apply includes_elem_of in Hst. rewrite Hst.
  eexists. split; [reflexivity|]. simpl. repeat split.
Qed.

(** C10: in a 'fetching' or 'creating' state a 'reject' action returns an
    'uninitialized' state with the action's error and no cart. *)
Theorem reject_before_cart (s : State) (e : string)
    (Hst : status s = "fetching" ∨ status s = "creating") :
  ∃ s', cartReducer s (reject e) = Return s'
        ∧ status s' = "uninitialized"
        ∧ error s' = Some e
        ∧ cart s' = None
        ∧ lastValidCart s' = None.
Proof.
  unfold cartReducer. destruct Hst as [-> | ->]; simpl;
    (eexists; split; [reflexivity|]; simpl; repeat split).
Qed.

(** Every successful transition, by action and source status. *)
Lemma cartReducer_Return (s s' : State) (a : CartAction) :
  cartReducer s a = Return s' →
  (a = cartFetch ∧ status s = "uninitialized" ∧ status s' = "fetching")
  ∨ (a = cartCreate ∧ status s = "uninitialized" ∧ status s' = "creating")
  ∨ ((∃ c, a = resolve c) ∧ status s ∈ ["updating"; "fetching"; "creating"]
     ∧ status s' = "idle")
  ∨ ((∃ e, a = reject e) ∧ (status s = "fetching" ∨ status s = "creating")
     ∧ status s' = "uninitialized")
  ∨ ((∃ e, a = reject e) ∧ status s = "updating" ∧ status s' = "idle")
  ∨ (a = resetCart ∧ status s = "fetching" ∧ status s' = "uninitialized")
  ∨ (mutating a = true ∧ status s = "idle" ∧ status s' = "updating").
Proof.
  unfold cartReducer. intros H. destruct a.
  - destruct (String.eqb_spec (status s) "uninitialized"); [|discriminate].
    injection H as <-. auto.
  - destruct (String.eqb_spec (status s) "uninitialized"); [|discriminate].
    injection H as <-. auto.
  - destruct (includes _ (status s)) eqn:Hi; [|discriminate].
    apply includes_elem_of in Hi. injection H as <-. eauto 10.
  - destruct (String.eqb_spec (status s) "fetching");
      [injection H as <-; eauto 10|].
    destruct (String.eqb_spec (status s) "creating");
      [injection H as <-; eauto 10|].
    destruct (String.eqb_spec (status s) "updating"); [|discriminate].
    injection H as <-; eauto 10.
  - destruct (String.eqb_spec (status s) "fetching"); [|discriminate].
    injection H as <-. auto 10.
  - destruct (String.eqb_spec (status s) "idle"); [|discriminate].
    injection H as <-. auto 10.
  - destruct (String.eqb_spec (status s) "idle"); [|discriminate].
    destruct (cart s); [|discriminate]. injection H as <-. auto 10.
  - destruct (String.eqb_spec (status s) "idle"); [|discriminate].
    destruct (cart s); [|discriminate]. injection H as <-. auto 10.
  - destruct (String.eqb_spec (status s) "idle"); [|discriminate].
    injection H as <-. auto 10.
  - destruct (String.eqb_spec (status s) "idle"); [|discriminate].
    injection H as <-. auto 10.
  - destruct (String.eqb_spec (status s) "idle"); [|discriminate].
    injection H as <-. auto 10.
  - destruct (String.eqb_spec (status s) "idle"); [|discriminate].
    injection H as <-. auto 10.
Qed.

Ltac invert_Return H :=
  apply cartReducer_Return in H;
  destruct H as
    [(Ha & Hs & Hs')|[(Ha & Hs & Hs')|[([? Ha] & Hs & Hs')|[([? Ha] & Hs & Hs')
    |[([? Ha] & Hs & Hs')|[(Ha & Hs & Hs')|(Ha & Hs & Hs')]]]]]];
  try discriminate Ha; try (subst; simpl in *; congruence).

(** C6: 'cartFetch' succeeds exactly in 'uninitialized' and yields
    'fetching', 'cartCreate' succeeds exactly in 'uninitialized' and
    yields 'creating', each mutating action succeeds (on a state of type
    [State]) exactly in 'idle' and yields 'updating'; a transition that
    yields 'updating' starts in 'idle'. *)
Theorem lifecycle_order (s : State) (a : CartAction) :
  (a = cartFetch →
     ((∃ s', cartReducer s a = Return s') ↔ status s = "uninitialized")
     ∧ ∀ s', cartReducer s a = Return s' → status s' = "fetching")
  ∧ (a = cartCreate →
     ((∃ s', cartReducer s a = Return s') ↔ status s = "uninitialized")
     ∧ ∀ s', cartReducer s a = Return s' → status s' = "creating")
  ∧ (mutating a = true →
     (well_typed s = true →
      ((∃ s', cartReducer s a = Return s') ↔ status s = "idle"))
     ∧ ∀ s', cartReducer s a = Return s' → status s' = "updating")
  ∧ (∀ s', cartReducer s a = Return s' → status s' = "updating" →
     status s = "idle" ∧ mutating a = true).
Proof.
  split; [|split; [|split]].
  - intros ->. split; [split|].
    + intros [s' H]. invert_Return H; try assumption.
    + intros Hst. simpl. rewrite Hst. simpl. eauto.
    + intros s' H. invert_Return H; try assumption.
  - intros ->. split; [split|].
    + intros [s' H]. invert_Return H; try assumption.
    + intros Hst. simpl. rewrite Hst. simpl. eauto.
    + intros s' H. invert_Return H; try assumption.
  - intros Hm. split; [intros Hty; split|].
    + intros [s' H]. invert_Return H; try assumption.
    + intros Hst.
      destruct (mutating_idle_returns s a Hty Hst Hm) as (c & c' & Hr & _).
      eauto.
    + intros s' H. invert_Return H; try assumption.
  - intros s' H Hup. invert_Return H; try (split; assumption).
Qed.

(** The payload invariant implies the structural type. *)
Lemma phase_payload_well_typed (s : State) :
  phase_payload s = true → well_typed s = true.
Proof.
  unfold phase_payload, well_typed, phases.
  repeat case_bool_decide; simpl; intros Hpay; unbool;
    repeat (apply andb_true_intro; split);
    try apply bool_decide_eq_true; try assumption; try discriminate;
    try congruence;
    exfalso;
    match goal with Hn : status s ∉ _ |- _ => apply Hn end;
    match goal with
    | H : status s = _ |- _ => rewrite H; repeat constructor
    | H : status s = _ ∨ status s = _ |- _ =>
        destruct H as [-> | ->]; repeat constructor
    end.
Qed.

(** C5: a state returned by [cartReducer] has one of the five phases as
    its status (and each phase is returned by some transition); when the
    input state has type [State], the returned state carries the payload
    of its phase, so the invariant is preserved by every transition. *)
Theorem phase_invariant :
  (∀ s a s', cartReducer s a = Return s' →
     status s' ∈ phases
     ∧ (well_typed s = true → phase_payload s' = true)
     ∧ (phase_payload s = true → phase_payload s' = true))
  ∧ (∀ p, p ∈ phases →
     ∃ s a s', phase_payload s = true ∧ cartReducer s a = Return s'
               ∧ status s' = p).
Proof.
  split.
  - intros s a s' Hr.
    assert (Hmain : status s' ∈ phases
                    ∧ (well_typed s = true → phase_payload s' = true)).
    { split.
      - invert_Return Hr; rewrite Hs'; unfold phases; repeat constructor.
      - intros Hty. unfold cartReducer in Hr.
        pose proof (well_typed_idle s Hty) as Hidle.
        pose proof (well_typed_updating s Hty) as Hupd.
        destruct a;
          try (destruct (String.eqb_spec (status s) "uninitialized");
               [injection Hr as <-; reflexivity | discriminate Hr]);
          try (destruct (String.eqb_spec (status s) "idle") as [Heq|];
               [|discriminate Hr];
               destruct (Hidle Heq) as [c0 Hc]; rewrite ?Hc in Hr;
               injection Hr as <-; unfold updating; rewrite Hc; reflexivity).
        + destruct (includes _ (status s)); [|discriminate].
          injection Hr as <-. reflexivity.
        + destruct (String.eqb_spec (status s) "fetching");
            [injection Hr as <-; reflexivity|].
          destruct (String.eqb_spec (status s) "creating");
            [injection Hr as <-; reflexivity|].
          destruct (String.eqb_spec (status s) "updating") as [Heq|];
            [|discriminate Hr].
          destruct (Hupd Heq) as [_ [c0 Hc]].
          injection Hr as <-. rewrite Hc. reflexivity.
        + destruct (String.eqb_spec (status s) "fetching");
            [injection Hr as <-; reflexivity | discriminate Hr]. }
    destruct Hmain as [H1 H2]. repeat split; [assumption..|].
    intros Hp. apply H2, phase_payload_well_typed, Hp.
  - intros p Hp. unfold phases in Hp. unbool; subst p.
    + exists (mkState "fetching" None None None), resetCart. eexists.
      repeat split.
    + exists (mkState "uninitialized" None None None), cartFetch. eexists.
      repeat split.
    + exists (mkState "uninitialized" None None None), cartCreate. eexists.
      repeat split.
    + exists (mkState "fetching" None None None),
        (resolve (Cart.mk None [] [] None None)). eexists.
      repeat split.
    + exists (mkState "idle" (Some (Cart.mk None [] [] None None)) None None),
        addLineItem. eexists.
      repeat split.
Qed.

(** ** Optimistic carts *)

(** The filter of the 'removeLineItem' case keeps the lines whose id is
    not in the action's list. *)
Lemma filter_not_includes (ids : list string) (ls : list CartLine.t) :
  List.filter (λ l, negb (includes ids (CartLine.id l))) ls
  = filter (λ l, CartLine.id l ∉ ids) ls.
Proof.
  induction ls as [|l ls IH]; [reflexivity|]. simpl.
  destruct (includes ids (CartLine.id l)) eqn:Hi; simpl.
  - apply includes_elem_of in Hi.
    rewrite filter_cons_False; [assumption | intros Hn; exact (Hn Hi)].
  - apply includes_not_elem_of in Hi.
    rewrite filter_cons_True; [congruence | assumption].
Qed.

(** C8: in an 'idle' state with cart [c] a 'removeLineItem' action returns
    an 'updating' state whose cart has exactly the lines of [c] whose id
    is not in the action's list, in their order, and the other fields of
    [c]; [lastValidCart] is [c] itself. *)
Theorem removeLineItem_filters (s : State) (c : Cart.t) (ids : list string)
    (Hst : status s = "idle") (Hc : cart s = Some c) :
  ∃ s' c', cartReducer s (removeLineItem ids) = Return s'
    ∧ status s' = "updating"
    ∧ cart s' = Some c'
    ∧ Cart.lines c' = filter (λ l, CartLine.id l ∉ ids) (Cart.lines c)
    ∧ Cart.lines c' `sublist_of` Cart.lines c
    ∧ (∀ l, l ∈ Cart.lines c' ↔ l ∈ Cart.lines c ∧ CartLine.id l ∉ ids)
    ∧ Cart.id c' = Cart.id c
    ∧ Cart.attributes c' = Cart.attributes c
    ∧ Cart.note c' = Cart.note c
    ∧ Cart.buyerIdentity c' = Cart.buyerIdentity c
    ∧ lastValidCart s' = Some c.
Proof.
  unfold cartReducer. rewrite Hst, Hc. simpl.
  do 2 eexists. split; [reflexivity|]. simpl.
  rewrite filter_not_includes, Hc.
  split; [reflexivity|]. split; [reflexivity|]. split; [reflexivity|].
  split; [apply sublist_filter|].
  split; [|repeat split].
  intros l. simpl. rewrite list_elem_of_filter. tauto.
Qed.

(** What [updateLine] does to one line: it is left as it is unless the
    first update with its id has a quantity other than [0]. *)
Lemma updateLine_cases (updates : list CartLineUpdateInput.t) (line : CartLine.t) :
  (updateLine updates line = line
   ∧ (∀ u, u ∈ updates → CartLineUpdateInput.id u ≠ CartLine.id line))
  ∨ ∃ pre u post,
      updates = (pre ++ u :: post)%list
      ∧ (∀ v, v ∈ pre → CartLineUpdateInput.id v ≠ CartLine.id line)
      ∧ CartLineUpdateInput.id u = CartLine.id line
      ∧ updateLine updates line =
          match CartLineUpdateInput.quantity u with
          | Some q => if bool_decide (q ≠ 0%Z)
                      then CartLine.with_quantity line q else line
          | None => line
          end.
Proof.
  unfold updateLine.
  induction updates as [|v vs IH]; simpl.
  - left. split; [reflexivity|]. intros u Hu. inversion Hu.
  - destruct (String.eqb_spec (CartLineUpdateInput.id v) (CartLine.id line))
      as [Heq|Hne].
    + right. exists [], v, vs. repeat split; [|assumption|].
      * intros w Hw. inversion Hw.
      * destruct (CartLineUpdateInput.quantity v) as [q|]; [|reflexivity].
        destruct (Z.eqb_spec q 0) as [->|Hq]; cbn [negb];
          case_bool_decide; try reflexivity; contradiction.
    + destruct IH as [[IH1 IH2] | (pre & u & post & -> & Hpre & Hu & Hr)].
      * left. split; [assumption|].
        intros u Hu. apply elem_of_cons in Hu. destruct Hu as [-> | Hu];
          [assumption | now apply IH2].
      * right. exists (v :: pre), u, post. repeat split; [|assumption..].
        intros w Hw. apply elem_of_cons in Hw. destruct Hw as [-> | Hw];
          [assumption | now apply Hpre].
Qed.

(** [updateLine] follows the first update that names the line. *)
Lemma updateLine_first (pre post : list CartLineUpdateInput.t)
    (u : CartLineUpdateInput.t) (line : CartLine.t) :
  (∀ v, v ∈ pre → CartLineUpdateInput.id v ≠ CartLine.id line) →
  CartLineUpdateInput.id u = CartLine.id line →
  updateLine (pre ++ u :: post)%list line =
    match CartLineUpdateInput.quantity u with
    | Some q => if bool_decide (q ≠ 0%Z)
                then CartLine.with_quantity line q else line
    | None => line
    end.
Proof.
  unfold updateLine. intros Hpre Hu.
  induction pre as [|v pre IH]; simpl.
  - rewrite Hu, String.eqb_refl.
    destruct (CartLineUpdateInput.quantity u) as [q|]; [|reflexivity].
    destruct (Z.eqb_spec q 0) as [->|Hq]; cbn [negb];
      case_bool_decide; try reflexivity; contradiction.
  - destruct (String.eqb_spec (CartLineUpdateInput.id v) (CartLine.id line))
      as [Heq|Hne].
    + exfalso. apply (Hpre v); [left | assumption].
    + apply IH. intros w Hw. apply Hpre. now right.
Qed.

Lemma lookup_map {A B : Type} (f : A → B) (l : list A) (i : nat) (x : A) :
  l !! i = Some x → List.map f l !! i = Some (f x).
Proof.
  revert i. induction l as [|y l IH]; intros [|i]; simpl; try discriminate.
  - intros [= ->]. reflexivity.
  - apply IH.
Qed.

(** C9: in an 'idle' state with cart [c] an 'updateLineItem' action
    returns an 'updating' state whose cart has the lines of [c], one for
    one, each with its id, attributes and merchandise; a line's quantity
    changes only to the truthy quantity of an update with the same id; a
    line whose updates all have quantity 0 or none is unchanged, and so is
    a line that no update names; the first update that names a line is the
    one that counts. *)
Theorem updateLineItem_optimistic (s : State) (c : Cart.t)
    (updates : list CartLineUpdateInput.t)
    (Hst : status s = "idle") (Hc : cart s = Some c) :
  ∃ s' c', cartReducer s (updateLineItem updates) = Return s'
    ∧ status s' = "updating"
    ∧ cart s' = Some c'
    ∧ lastValidCart s' = Some c
    ∧ Cart.id c' = Cart.id c
    ∧ Cart.attributes c' = Cart.attributes c
    ∧ Cart.note c' = Cart.note c
    ∧ Cart.buyerIdentity c' = Cart.buyerIdentity c
    ∧ length (Cart.lines c') = length (Cart.lines c)
    ∧ ∀ i line, Cart.lines c !! i = Some line →
        ∃ line', Cart.lines c' !! i = Some line'
          ∧ CartLine.id line' = CartLine.id line
          ∧ CartLine.attributes line' = CartLine.attributes line
          ∧ CartLine.merchandise line' = CartLine.merchandise line
          ∧ (line' = line
             ∨ ∃ u, u ∈ updates
                 ∧ CartLineUpdateInput.id u = CartLine.id line
                 ∧ truthy (CartLineUpdateInput.quantity u) = true
                 ∧ CartLineUpdateInput.quantity u = Some (CartLine.quantity line'))
          ∧ ((∀ u, u ∈ updates →
                CartLineUpdateInput.id u = CartLine.id line →
                truthy (CartLineUpdateInput.quantity u) = false) →
             line' = line)
          ∧ ((∀ u, u ∈ updates →
                CartLineUpdateInput.id u ≠ CartLine.id line) →
             line' = line)
          ∧ (∀ pre u post, updates = (pre ++ u :: post)%list →
               (∀ v, v ∈ pre → CartLineUpdateInput.id v ≠ CartLine.id line) →
               CartLineUpdateInput.id u = CartLine.id line →
               CartLine.quantity line' =
                 if truthy (CartLineUpdateInput.quantity u)
                 then default 0%Z (CartLineUpdateInput.quantity u)
                 else CartLine.quantity line).
Proof.
  unfold cartReducer. rewrite Hst, Hc. simpl.
  do 2 eexists. split; [reflexivity|]. simpl. rewrite Hc.
  do 7 (split; [reflexivity|]).
  split; [apply length_map|].
  intros i line Hi. exists (updateLine updates line).
  split; [now apply lookup_map|].
  assert (Hfields : CartLine.id (updateLine updates line) = CartLine.id line
            ∧ CartLine.attributes (updateLine updates line)
              = CartLine.attributes line
            ∧ CartLine.merchandise (updateLine updates line)
              = CartLine.merchandise line).
  { unfold updateLine. destruct (List.find _ updates) as [u|]; [|repeat split].
    destruct (CartLineUpdateInput.quantity u) as [q|]; [|repeat split].
    destruct (negb _); repeat split. }
  destruct Hfields as (Hid & Hattr & Hmer). do 3 (split; [assumption|]).
  split; [|split; [|split]].
  - destruct (updateLine_cases updates line)
      as [[Hsame _] | (pre & u & post & -> & Hpre & Hu & Hr)]; [now left|].
    rewrite Hr. destruct (CartLineUpdateInput.quantity u) as [q|] eqn:Hq;
      [|now left].
    case_bool_decide as Hq0; [|now left].
    right. exists u. split; [apply elem_of_app; right; left|].
    split; [assumption|]. rewrite Hq. simpl.
    split; [now apply bool_decide_eq_true_2 | reflexivity].
  - intros Hall.
    destruct (updateLine_cases updates line)
      as [[Hsame _] | (pre & u & post & -> & Hpre & Hu & Hr)]; [assumption|].
    rewrite Hr.
    assert (Hf : truthy (CartLineUpdateInput.quantity u) = false).
    { apply Hall; [apply elem_of_app; right; left | assumption]. }
    destruct (CartLineUpdateInput.quantity u) as [q|]; [|reflexivity].
    simpl in Hf. rewrite Hf. reflexivity.
  - intros Hnone.
    destruct (updateLine_cases updates line)
      as [[Hsame _] | (pre & u & post & -> & Hpre & Hu & Hr)]; [assumption|].
    exfalso. apply (Hnone u); [apply elem_of_app; right; left | assumption].
  - intros pre u post -> Hpre Hu.
    rewrite (updateLine_first pre post u line Hpre Hu).
    destruct (CartLineUpdateInput.quantity u) as [q|]; [|reflexivity].
    simpl. case_bool_decide; reflexivity.
Qed.

(** ** The reducer on references: no writes, and the value it computes *)

Section Store.
Implicit Types h : Ref.store.
Implicit Types l : Ref.loc.

Lemma bind_Normal {A B : Type} (m : Ref.M A) (k : A → Ref.M B) h a h' :
  m h = (Ref.Normal a, h') → Ref.bind m k h = k a h'.
Proof. unfold Ref.bind. intros ->. reflexivity. Qed.

(** Allocation takes an unused reference and leaves every cell in
    place. *)
Lemma alloc_spec (c : Ref.Cell) h :
  ∃ l, Ref.alloc c h = (Ref.Normal l, <[l:=c]> h)
       ∧ h !! l = None
       ∧ h ⊆ <[l:=c]> h.
Proof.
  exists (fresh (dom h)).
  assert (Hfresh : h !! fresh (dom h) = None)
    by apply not_elem_of_dom, is_fresh.
  split; [reflexivity|]. split; [assumption|].
  now apply insert_subseteq.
Qed.

(** *** Values survive in a larger store *)

Lemma readLine_mono h h' l x :
  h ⊆ h' → readLine h l = Some x → readLine h' l = Some x.
Proof.
  unfold readLine. intros Hsub H.
  destruct (h !! l) as [c|] eqn:E; [|discriminate].
  rewrite (lookup_weaken _ _ _ _ E Hsub). assumption.
Qed.

Lemma readUpdate_mono h h' l x :
  h ⊆ h' → readUpdate h l = Some x → readUpdate h' l = Some x.
Proof.
  unfold readUpdate. intros Hsub H.
  destruct (h !! l) as [c|] eqn:E; [|discriminate].
  rewrite (lookup_weaken _ _ _ _ E Hsub). assumption.
Qed.

Lemma readStrings_mono h h' l x :
  h ⊆ h' → readStrings h l = Some x → readStrings h' l = Some x.
Proof.
  unfold readStrings. intros Hsub H.
  destruct (h !! l) as [c|] eqn:E; [|discriminate].
  rewrite (lookup_weaken _ _ _ _ E Hsub). assumption.
Qed.

Lemma Forall2_readLine_mono h h' (ls : list Ref.loc) (xs : list CartLine.t) :
  h ⊆ h' →
  Forall2 (λ l x, readLine h l = Some x) ls xs →
  Forall2 (λ l x, readLine h' l = Some x) ls xs.
Proof.
  intros Hsub H. induction H; constructor; eauto using readLine_mono.
Qed.

Lemma Forall2_readUpdate_mono h h' (us : list Ref.loc)
    (xs : list CartLineUpdateInput.t) :
  h ⊆ h' →
  Forall2 (λ l x, readUpdate h l = Some x) us xs →
  Forall2 (λ l x, readUpdate h' l = Some x) us xs.
Proof.
  intros Hsub H. induction H; constructor; eauto using readUpdate_mono.
Qed.

Lemma readLines_mono h h' l xs :
  h ⊆ h' → readLines h l = Some xs → readLines h' l = Some xs.
Proof.
  unfold readLines. intros Hsub H.
  destruct (h !! l) as [c|] eqn:E; [|discriminate].
  rewrite (lookup_weaken _ _ _ _ E Hsub).
  destruct c; try discriminate.
  apply mapM_Some. apply mapM_Some in H.
  eauto using Forall2_readLine_mono.
Qed.

Lemma readUpdates_mono h h' l xs :
  h ⊆ h' → readUpdates h l = Some xs → readUpdates h' l = Some xs.
Proof.
  unfold readUpdates. intros Hsub H.
  destruct (h !! l) as [c|] eqn:E; [|discriminate].
  rewrite (lookup_weaken _ _ _ _ E Hsub).
  destruct c; try discriminate.
  apply mapM_Some. apply mapM_Some in H.
  eauto using Forall2_readUpdate_mono.
Qed.

Lemma readCart_mono h h' l c :
  h ⊆ h' → readCart h l = Some c → readCart h' l = Some c.
Proof.
  unfold readCart. intros Hsub H.
  destruct (h !! l) as [x|] eqn:E; [|discriminate].
  rewrite (lookup_weaken _ _ _ _ E Hsub).
  destruct x; try discriminate.
  destruct (readLines h _) as [ls|] eqn:El; [|discriminate].
  rewrite (readLines_mono _ _ _ _ Hsub El). assumption.
Qed.

Lemma readOptCart_mono h h' (o : option Ref.loc) c :
  h ⊆ h' → readOptCart h o = Some c → readOptCart h' o = Some c.
Proof.
  unfold readOptCart. intros Hsub H. destruct o as [l|]; [|assumption].
  destruct (readCart h l) as [x|] eqn:E; [|discriminate].
  rewrite (readCart_mono _ _ _ _ Hsub E). assumption.
Qed.

Lemma readState_mono h h' l s :
  h ⊆ h' → readState h l = Some s → readState h' l = Some s.
Proof.
  unfold readState. intros Hsub H.
  destruct (h !! l) as [x|] eqn:E; [|discriminate].
  rewrite (lookup_weaken _ _ _ _ E Hsub).
  destruct x; try discriminate.
  destruct (readOptCart h (Ref.cart _)) as [c|] eqn:Ec; [|discriminate].
  destruct (readOptCart h (Ref.lastValidCart _)) as [lv|] eqn:Elv;
    [|discriminate].
  rewrite (readOptCart_mono _ _ _ _ Hsub Ec),
    (readOptCart_mono _ _ _ _ Hsub Elv). assumption.
Qed.

Lemma readAction_mono h h' l a :
  h ⊆ h' → readAction h l = Some a → readAction h' l = Some a.
Proof.
  unfold readAction. intros Hsub H.
  destruct (h !! l) as [x|] eqn:E; [|discriminate].
  rewrite (lookup_weaken _ _ _ _ E Hsub).
  destruct x as [| | | | | |act|]; try discriminate.
  destruct act; try assumption.
  - destruct (readCart h cart0) as [c|] eqn:Ec; [|discriminate].
    rewrite (readCart_mono _ _ _ _ Hsub Ec). assumption.
  - destruct (readStrings h lines) as [c|] eqn:Ec; [|discriminate].
    rewrite (readStrings_mono _ _ _ _ Hsub Ec). assumption.
  - destruct (readUpdates h lines) as [c|] eqn:Ec; [|discriminate].
    rewrite (readUpdates_mono _ _ _ _ Hsub Ec). assumption.
Qed.

(** *** Reads *)

Lemma loadLine_spec h l x :
  readLine h l = Some x → Ref.loadLine l h = (Ref.Normal x, h).
Proof.
  unfold readLine, Ref.loadLine, Ref.bind, Ref.load. intros H.
  destruct (h !! l) as [[]|]; try discriminate. now injection H as ->.
Qed.

Lemma loadUpdate_spec h l x :
  readUpdate h l = Some x → Ref.loadUpdate l h = (Ref.Normal x, h).
Proof.
  unfold readUpdate, Ref.loadUpdate, Ref.bind, Ref.load. intros H.
  destruct (h !! l) as [[]|]; try discriminate. now injection H as ->.
Qed.

Lemma loadStrings_spec h l xs :
  readStrings h l = Some xs → Ref.loadStrings l h = (Ref.Normal xs, h).
Proof.
  unfold readStrings, Ref.loadStrings, Ref.bind, Ref.load. intros H.
  destruct (h !! l) as [[]|]; try discriminate. now injection H as ->.
Qed.

Lemma loadLines_spec h l xs :
  readLines h l = Some xs →
  ∃ ls, Ref.loadArray l h = (Ref.Normal ls, h)
        ∧ Forall2 (λ l x, readLine h l = Some x) ls xs.
Proof.
  unfold readLines, Ref.loadArray, Ref.bind, Ref.load. intros H.
  destruct (h !! l) as [[]|]; try discriminate.
  eexists. split; [reflexivity|]. now apply mapM_Some.
Qed.

Lemma loadUpdates_spec h l xs :
  readUpdates h l = Some xs →
  ∃ us, Ref.loadArray l h = (Ref.Normal us, h)
        ∧ Forall2 (λ l x, readUpdate h l = Some x) us xs.
Proof.
  unfold readUpdates, Ref.loadArray, Ref.bind, Ref.load. intros H.
  destruct (h !! l) as [[]|]; try discriminate.
  eexists. split; [reflexivity|]. now apply mapM_Some.
Qed.

Lemma loadCart_spec h l c :
  readCart h l = Some c →
  ∃ o, Ref.loadCart l h = (Ref.Normal o, h)
       ∧ readLines h (Ref.lines o) = Some (Cart.lines c)
       ∧ Ref.id o = Cart.id c
       ∧ Ref.attributes o = Cart.attributes c
       ∧ Ref.note o = Cart.note c
       ∧ Ref.buyerIdentity o = Cart.buyerIdentity c.
Proof.
  unfold readCart, Ref.loadCart, Ref.bind, Ref.load. intros H.
  destruct (h !! l) as [[]|]; try discriminate.
  destruct (readLines h _) as [ls|] eqn:El; [|discriminate].
  injection H as <-. eexists. split; [reflexivity|]. simpl.
  repeat split. assumption.
Qed.

Lemma loadState_spec h l s :
  readState h l = Some s →
  ∃ o, Ref.loadState l h = (Ref.Normal o, h)
       ∧ Ref.status o = status s
       ∧ readOptCart h (Ref.cart o) = Some (cart s)
       ∧ readOptCart h (Ref.lastValidCart o) = Some (lastValidCart s)
       ∧ Ref.error o = error s.
Proof.
  unfold readState, Ref.loadState, Ref.bind, Ref.load. intros H.
  destruct (h !! l) as [[]|]; try discriminate.
  destruct (readOptCart h (Ref.cart _)) as [c|] eqn:Ec; [|discriminate].
  destruct (readOptCart h (Ref.lastValidCart _)) as [lv|] eqn:Elv;
    [|discriminate].
  injection H as <-. eexists. split; [reflexivity|]. repeat split; assumption.
Qed.

(** *** Array methods *)

Lemma filter_notRemoved_spec h (ids : Ref.loc) (xs : list string)
    (ls : list Ref.loc) (lines : list CartLine.t) :
  readStrings h ids = Some xs →
  Forall2 (λ l x, readLine h l = Some x) ls lines →
  ∃ kept, Ref.filter (Ref.notRemoved ids) ls h = (Ref.Normal kept, h)
          ∧ Forall2 (λ l x, readLine h l = Some x) kept
              (List.filter (λ x, negb (includes xs (CartLine.id x))) lines).
Proof.
  intros Hids H. induction H as [|l x ls lines Hl _ [kept [IH1 IH2]]]; simpl.
  - exists []. split; [reflexivity | constructor].
  - assert (Hcb : Ref.notRemoved ids l h
                  = (Ref.Normal (negb (includes xs (CartLine.id x))), h)).
    { unfold Ref.notRemoved.
      rewrite (bind_Normal _ _ _ _ _ (loadLine_spec _ _ _ Hl)).
      rewrite (bind_Normal _ _ _ _ _ (loadStrings_spec _ _ _ Hids)).
      reflexivity. }
    rewrite (bind_Normal _ _ _ _ _ Hcb), (bind_Normal _ _ _ _ _ IH1).
    eexists. split; [reflexivity|].
    destruct (negb _); [constructor|]; assumption.
Qed.

Lemma find_spec h (line : CartLine.t) (us : list Ref.loc)
    (updates : list CartLineUpdateInput.t) :
  Forall2 (λ l x, readUpdate h l = Some x) us updates →
  ∃ r, Ref.find
         (λ u, Ref.bind (Ref.loadUpdate u)
                 (λ x, Ref.ret (String.eqb (CartLineUpdateInput.id x)
                                           (CartLine.id line)))) us h
       = (Ref.Normal r, h)
       ∧ match r, List.find (λ x, String.eqb (CartLineUpdateInput.id x)
                                             (CartLine.id line)) updates with
         | Some u, Some x => readUpdate h u = Some x
         | None, None => True
         | _, _ => False
         end.
Proof.
  intros H. induction H as [|u x us updates Hu _ [r [IH1 IH2]]]; simpl.
  - exists None. split; [reflexivity | exact I].
  - erewrite bind_Normal;
      [|erewrite bind_Normal by (apply loadUpdate_spec; eassumption);
        reflexivity].
    destruct (String.eqb _ _).
    + exists (Some u). split; [reflexivity | assumption].
    + exists r. split; assumption.
Qed.

Lemma updateLine_spec h (ups l : Ref.loc)
    (updates : list CartLineUpdateInput.t) (line : CartLine.t) :
  readUpdates h ups = Some updates →
  readLine h l = Some line →
  ∃ l' h', Ref.updateLine ups l h = (Ref.Normal l', h')
           ∧ h ⊆ h'
           ∧ readLine h' l' = Some (updateLine updates line).
Proof.
  intros Hups Hl. unfold Ref.updateLine, updateLine.
  rewrite (bind_Normal _ _ _ _ _ (loadLine_spec _ _ _ Hl)).
  destruct (loadUpdates_spec _ _ _ Hups) as [us [Hus Hall]].
  rewrite (bind_Normal _ _ _ _ _ Hus).
  destruct (find_spec h line us updates Hall) as [r [Hr Hrel]].
  rewrite (bind_Normal _ _ _ _ _ Hr).
  destruct r as [u|], (List.find _ updates) as [x|]; try contradiction.
  - rewrite (bind_Normal _ _ _ _ _ (loadUpdate_spec _ _ _ Hrel)).
    destruct (CartLineUpdateInput.quantity x) as [q|].
    + destruct (negb (Z.eqb q 0)).
      * destruct (alloc_spec (Ref.LineCell (CartLine.with_quantity line q)) h)
          as [l' [Hal [_ Hsub]]].
        rewrite Hal. do 2 eexists. split; [reflexivity|].
        split; [assumption|]. unfold readLine.
        now rewrite lookup_insert_eq.
      * exists l, h. repeat split; [reflexivity | assumption].
    + exists l, h. repeat split; [reflexivity | assumption].
  - exists l, h. repeat split; [reflexivity | assumption].
Qed.

Lemma map_updateLine_spec (ups : Ref.loc)
    (updates : list CartLineUpdateInput.t)
    (ls : list Ref.loc) (lines : list CartLine.t) h :
  readUpdates h ups = Some updates →
  Forall2 (λ l x, readLine h l = Some x) ls lines →
  ∃ ls' h', Ref.map (Ref.updateLine ups) ls h = (Ref.Normal ls', h')
            ∧ h ⊆ h'
            ∧ Forall2 (λ l x, readLine h' l = Some x) ls'
                (List.map (updateLine updates) lines).
Proof.
  intros Hups H. revert lines h Hups H.
  induction ls as [|l ls IH]; intros lines h Hups H;
    inversion H as [|? x ? xs Hl Hrest];
    subst; simpl.
  - exists [], h. split; [reflexivity|]. split; [reflexivity | constructor].
  - destruct (updateLine_spec h ups l updates x Hups Hl)
      as (l' & h1 & Hrun & Hsub1 & Hl').
    rewrite (bind_Normal _ _ _ _ _ Hrun).
    destruct (IH xs h1) as (ls' & h2 & Hrun2 & Hsub2 & Hls').
    { eauto using readUpdates_mono. }
    { eauto using Forall2_readLine_mono. }
    rewrite (bind_Normal _ _ _ _ _ Hrun2).
    exists (l' :: ls'), h2. split; [reflexivity|].
    split; [etrans; eassumption|].
    constructor; [eauto using readLine_mono | assumption].
Qed.

(** *** Object literals *)

Lemma withLines_spec h (o : Ref.CartObj) (ls : list Ref.loc)
    (lines : list CartLine.t) :
  Forall2 (λ l x, readLine h l = Some x) ls lines →
  ∃ l' h', Ref.withLines o ls h = (Ref.Normal l', h')
           ∧ h ⊆ h'
           ∧ readCart h' l' =
               Some (Cart.mk (Ref.id o) lines (Ref.attributes o)
                             (Ref.note o) (Ref.buyerIdentity o)).
Proof.
  intros Hls. unfold Ref.withLines.
  destruct (alloc_spec (Ref.ArrayCell ls) h) as (arr & Harr & _ & Hsub1).
  rewrite (bind_Normal _ _ _ _ _ Harr).
  set (h1 := <[arr:=Ref.ArrayCell ls]> h) in *.
  match goal with |- context [Ref.alloc ?c h1] =>
    destruct (alloc_spec c h1) as (l' & Hl' & _ & Hsub2); rewrite Hl'
  end.
  do 2 eexists. split; [reflexivity|]. split; [etrans; eassumption|].
  unfold readCart. rewrite lookup_insert_eq. simpl.
  unfold readLines.
  assert (Harr1 : h1 !! arr = Some (Ref.ArrayCell ls))
    by apply lookup_insert_eq.
  rewrite (lookup_weaken _ _ _ _ Harr1 Hsub2).
  assert (Hm : mapM (readLine (<[l':=Ref.CartCell
                 {| Ref.id := Ref.id o; Ref.lines := arr;
                    Ref.attributes := Ref.attributes o;
                    Ref.note := Ref.note o;
                    Ref.buyerIdentity := Ref.buyerIdentity o |}]> h1)) ls
               = Some lines).
  { apply mapM_Some. eapply Forall2_readLine_mono; [|eassumption].
    etrans; eassumption. }
  rewrite Hm. reflexivity.
Qed.

Lemma alloc_state_refines h (o : Ref.StateObj) c lv (s' : State) :
  readOptCart h (Ref.cart o) = Some c →
  readOptCart h (Ref.lastValidCart o) = Some lv →
  s' = mkState (Ref.status o) c lv (Ref.error o) →
  ∃ r h', Ref.alloc (Ref.StateCell o) h = (r, h')
          ∧ h ⊆ h'
          ∧ readOutcome h' r = Some (Return s').
Proof.
  intros Hc Hlv ->.
  destruct (alloc_spec (Ref.StateCell o) h) as (l & Hl & _ & Hsub).
  rewrite Hl. do 2 eexists. split; [reflexivity|]. split; [assumption|].
  simpl. unfold readState. rewrite lookup_insert_eq.
  rewrite (readOptCart_mono _ _ _ _ Hsub Hc),
    (readOptCart_mono _ _ _ _ Hsub Hlv). reflexivity.
Qed.

Lemma cannotDispatch_refines h (o : Ref.StateObj) (act : Ref.ActionObj)
    (s : State) (a : CartAction) :
  Ref.status o = status s →
  Ref.type act = type a →
  ∃ r h', Ref.cannotDispatch o act h = (r, h')
          ∧ h ⊆ h'
          ∧ readOutcome h' r = Some (Throw (cannotDispatch s a)).
Proof.
  intros Hst Hty. unfold Ref.cannotDispatch, cannotDispatch.
  match goal with |- context [Ref.alloc ?c] =>
    destruct (alloc_spec c h) as (e & He & _ & Hsub)
  end.
  rewrite (bind_Normal _ _ _ _ _ He).
  do 2 eexists. split; [reflexivity|]. split; [assumption|].
  simpl. rewrite lookup_insert_eq, Hst, Hty. reflexivity.
Qed.

(** *** The reducer *)

Lemma refines_weaken {A : Type} (m : Ref.M A) h h1
    (P : Ref.store → Ref.Outcome A → Prop) :
  h ⊆ h1 →
  (∃ r h', m h1 = (r, h') ∧ h1 ⊆ h' ∧ P h' r) →
  ∃ r h', m h1 = (r, h') ∧ h ⊆ h' ∧ P h' r.
Proof.
  intros Hsub (r & h' & Hrun & Hsub' & HP).
  exists r, h'. split; [assumption|]. split; [etrans; eassumption | assumption].
Qed.

(** The six cases that build [{status: 'updating', cart: state.cart,
    lastValidCart: state.cart}] or throw. *)
Lemma updating_refines h (o : Ref.StateObj) (act : Ref.ActionObj)
    (s : State) (a : CartAction) :
  Ref.status o = status s →
  Ref.type act = type a →
  readOptCart h (Ref.cart o) = Some (cart s) →
  ∃ r h',
    (if String.eqb (Ref.status o) "idle" then Ref.updating (Ref.cart o) o
     else Ref.cannotDispatch o act) h = (r, h')
    ∧ h ⊆ h'
    ∧ readOutcome h' r =
        Some (if String.eqb (status s) "idle"
              then Return (updating (cart s) s)
              else Throw (cannotDispatch s a)).
Proof.
  intros Hst Hty Hc. rewrite Hst.
  destruct (String.eqb (status s) "idle").
  - unfold Ref.updating. eapply alloc_state_refines; try eassumption.
    reflexivity.
  - now apply cannotDispatch_refines.
Qed.

(** On a store that holds the values [s] and [a] at [state] and
    [action], the call completes, every cell of the store is left as it
    was, and the completion has the value [cartReducer s a]. *)
Lemma cartReducer_refines h (state action : Ref.loc)
    (s : State) (a : CartAction) :
  readState h state = Some s →
  readAction h action = Some a →
  ∃ r h', Ref.cartReducer state action h = (r, h')
          ∧ h ⊆ h'
          ∧ readOutcome h' r = Some (cartReducer s a).
Proof.
  intros Hs Ha. unfold Ref.cartReducer.
  destruct (loadState_spec _ _ _ Hs) as (o & Hload & Hst & Hc & Hlv & He).
  unfold readAction in Ha.
  assert (Hact : ∃ act, Ref.loadAction action h = (Ref.Normal act, h)
                        ∧ h !! action = Some (Ref.ActionCell act)).
  { unfold Ref.loadAction, Ref.bind, Ref.load.
    destruct (h !! action) as [[]|]; try discriminate. eauto. }
  destruct Hact as (act & Hloada & Hcell). rewrite Hcell in Ha.
  rewrite (bind_Normal _ _ _ _ _ Hloada), (bind_Normal _ _ _ _ _ Hload).
  destruct act as [| |cl|e| | |ids|ups| | | |]; simpl in Ha;
    try (injection Ha as <-);
    try (now apply updating_refines).
  - (* cartFetch *)
    simpl. rewrite Hst. destruct (String.eqb (status s) "uninitialized").
    + eapply alloc_state_refines; reflexivity.
    + now apply cannotDispatch_refines.
  - (* cartCreate *)
    simpl. rewrite Hst. destruct (String.eqb (status s) "uninitialized").
    + eapply alloc_state_refines; reflexivity.
    + now apply cannotDispatch_refines.
  - (* resolve *)
    destruct (readCart h cl) as [c|] eqn:Hcl; [|discriminate].
    injection Ha as <-. unfold cartReducer. cbv beta iota zeta.
    destruct (alloc_spec
                (Ref.StringsCell ["updating"; "fetching"; "creating"]) h)
      as (rs & Hrs & _ & Hsub0).
    rewrite (bind_Normal _ _ _ _ _ Hrs).
    erewrite bind_Normal
      by (apply loadStrings_spec; unfold readStrings;
          rewrite lookup_insert_eq; reflexivity).
    rewrite Hst. apply (refines_weaken _ _ _ _ Hsub0).
    destruct (includes _ (status s)).
    + eapply alloc_state_refines; simpl;
        [rewrite (readCart_mono _ _ _ _ Hsub0 Hcl)| |]; reflexivity.
    + now apply cannotDispatch_refines.
  - (* reject *)
    simpl. rewrite Hst.
    destruct (String.eqb (status s) "fetching"
              || String.eqb (status s) "creating").
    + eapply alloc_state_refines; reflexivity.
    + destruct (String.eqb (status s) "updating").
      * eapply alloc_state_refines; simpl; [eassumption| |]; reflexivity.
      * now apply cannotDispatch_refines.
  - (* resetCart *)
    simpl. rewrite Hst. destruct (String.eqb (status s) "fetching").
    + eapply alloc_state_refines; reflexivity.
    + now apply cannotDispatch_refines.
  - (* removeLineItem *)
    destruct (readStrings h ids) as [xs|] eqn:Hids; [|discriminate].
    injection Ha as <-. simpl. rewrite Hst.
    destruct (String.eqb (status s) "idle");
      [|now apply cannotDispatch_refines].
    destruct (Ref.cart o) as [cl|] eqn:Hco; simpl in Hc.
    + destruct (readCart h cl) as [c|] eqn:Hcl; [|discriminate].
      injection Hc as Hc. rewrite <- Hc.
      destruct (loadCart_spec _ _ _ Hcl)
        as (co & Hloadc & Hlines & Hid & Hat & Hno & Hbu).
      rewrite (bind_Normal _ _ _ _ _ Hloadc).
      destruct (loadLines_spec _ _ _ Hlines) as (ls & Hloadl & Hls).
      rewrite (bind_Normal _ _ _ _ _ Hloadl).
      destruct (filter_notRemoved_spec h ids xs ls _ Hids Hls)
        as (kept & Hfilter & Hkept).
      rewrite (bind_Normal _ _ _ _ _ Hfilter).
      destruct (withLines_spec h co kept _ Hkept) as (c' & h1 & Hwith & Hsub1 & Hc').
      rewrite (bind_Normal _ _ _ _ _ Hwith).
      unfold Ref.updating.
      match goal with |- context [Ref.alloc (Ref.StateCell ?st) h1] =>
        destruct (alloc_state_refines h1 st
                    (Some (Cart.with_lines c
                       (List.filter (λ x, negb (includes xs (CartLine.id x)))
                          (Cart.lines c))))
                    (Some c) (updating
                       (Some (Cart.with_lines c
                          (List.filter (λ x, negb (includes xs (CartLine.id x)))
                             (Cart.lines c)))) s))
          as (r & h2 & Hrun & Hsub2 & Hout)
      end.
      * simpl. rewrite Hc'. unfold Cart.with_lines.
        rewrite Hid, Hat, Hno, Hbu. reflexivity.
      * simpl. rewrite Hco. simpl.
        rewrite (readCart_mono _ _ _ _ Hsub1 Hcl). reflexivity.
      * unfold updating. simpl. rewrite <- Hc. reflexivity.
      * exists r, h2. split; [assumption|]. split; [etrans; eassumption|].
        assumption.
    + injection Hc as Hc. rewrite <- Hc.
      exists (Ref.Abrupt Ref.ThrownTypeError), h.
      split; [reflexivity|]. split; reflexivity.
  - (* updateLineItem *)
    destruct (readUpdates h ups) as [xs|] eqn:Hups; [|discriminate].
    injection Ha as <-. simpl. rewrite Hst.
    destruct (String.eqb (status s) "idle");
      [|now apply cannotDispatch_refines].
    destruct (Ref.cart o) as [cl|] eqn:Hco; simpl in Hc.
    + destruct (readCart h cl) as [c|] eqn:Hcl; [|discriminate].
      injection Hc as Hc. rewrite <- Hc.
      destruct (loadCart_spec _ _ _ Hcl)
        as (co & Hloadc & Hlines & Hid & Hat & Hno & Hbu).
      rewrite (bind_Normal _ _ _ _ _ Hloadc).
      destruct (loadLines_spec _ _ _ Hlines) as (ls & Hloadl & Hls).
      rewrite (bind_Normal _ _ _ _ _ Hloadl).
      destruct (map_updateLine_spec ups xs ls _ h Hups Hls)
        as (mapped & h0 & Hmap & Hsub0 & Hmapped).
      rewrite (bind_Normal _ _ _ _ _ Hmap).
      destruct (withLines_spec h0 co mapped _ Hmapped)
        as (c' & h1 & Hwith & Hsub1 & Hc').
      rewrite (bind_Normal _ _ _ _ _ Hwith).
      unfold Ref.updating.
      match goal with |- context [Ref.alloc (Ref.StateCell ?st) h1] =>
        destruct (alloc_state_refines h1 st
                    (Some (Cart.with_lines c
                       (List.map (updateLine xs) (Cart.lines c))))
                    (Some c) (updating
                       (Some (Cart.with_lines c
                          (List.map (updateLine xs) (Cart.lines c)))) s))
          as (r & h2 & Hrun & Hsub2 & Hout)
      end.
      * simpl. rewrite Hc'. unfold Cart.with_lines.
        rewrite Hid, Hat, Hno, Hbu. reflexivity.
      * simpl. rewrite Hco. simpl.
        assert (Hsub01 : h ⊆ h1) by (etrans; eassumption).
        rewrite (readCart_mono _ _ _ _ Hsub01 Hcl). reflexivity.
      * unfold updating. simpl. rewrite <- Hc. reflexivity.
      * exists r, h2. split; [assumption|].
        split; [etrans; [|eassumption]; etrans; eassumption|].
        assumption.
    + injection Hc as Hc. rewrite <- Hc.
      exists (Ref.Abrupt Ref.ThrownTypeError), h.
      split; [reflexivity|]. split; reflexivity.
Qed.

End Store.

(** C7: two calls on equal values of state and action, in any two stores
    and at any references, complete alike: both throw an error with the
    same message or both return states of equal value, the value being
    [cartReducer s a]; and a call leaves every cell of its store as it
    was, in particular the values of its state and of its action. *)
Theorem cartReducer_pure (h1 h2 : Ref.store)
    (state1 action1 state2 action2 : Ref.loc) (s : State) (a : CartAction)
    (Hs1 : readState h1 state1 = Some s)
    (Ha1 : readAction h1 action1 = Some a)
    (Hs2 : readState h2 state2 = Some s)
    (Ha2 : readAction h2 action2 = Some a) :
  ∃ r1 h1' r2 h2',
    Ref.cartReducer state1 action1 h1 = (r1, h1')
    ∧ Ref.cartReducer state2 action2 h2 = (r2, h2')
    ∧ ((∃ e, readOutcome h1' r1 = Some (Throw e)
             ∧ readOutcome h2' r2 = Some (Throw e))
       ∨ (∃ s', readOutcome h1' r1 = Some (Return s')
                ∧ readOutcome h2' r2 = Some (Return s')))
    ∧ readOutcome h1' r1 = Some (cartReducer s a)
    ∧ readOutcome h2' r2 = Some (cartReducer s a)
    ∧ h1 ⊆ h1'
    ∧ h2 ⊆ h2'
    ∧ readState h1' state1 = Some s
    ∧ readAction h1' action1 = Some a
    ∧ readState h2' state2 = Some s
    ∧ readAction h2' action2 = Some a.
Proof.
  destruct (cartReducer_refines h1 state1 action1 s a Hs1 Ha1)
    as (r1 & h1' & Hrun1 & Hsub1 & Hout1).
  destruct (cartReducer_refines h2 state2 action2 s a Hs2 Ha2)
    as (r2 & h2' & Hrun2 & Hsub2 & Hout2).
  exists r1, h1', r2, h2'.
  split; [assumption|]. split; [assumption|].
  split.
  { rewrite Hout1, Hout2. destruct (cartReducer s a) as [s'|e].
    - right. exists s'. split; reflexivity.
    - left. exists e. split; reflexivity. }
  repeat (split; [assumption|]).
  eauto 10 using readState_mono, readAction_mono.
Qed.

(** ** The theorems on the sample states *)

Lemma cartReducer_table_witness :
  (permitted (status Example.fetching) addLineItem = false
   ∧ cartReducer Example.fetching addLineItem =
       Throw (Error "Cannot dispatch event (addLineItem) for current cart state (fetching)"))
  ∧ (permitted (status Example.idle) (removeLineItem ["line-1"]) = true
     ∧ well_typed Example.idle = true
     ∧ ∃ s', cartReducer Example.idle (removeLineItem ["line-1"]) = Return s').
Proof.
  split.
  - split; [reflexivity|].
    apply (proj1 (cartReducer_table Example.fetching addLineItem)).
    reflexivity.
  - split; [reflexivity|]. split; [reflexivity|].
    apply (proj2 (cartReducer_table Example.idle (removeLineItem ["line-1"])));
      reflexivity.
Defined.

Lemma reject_while_updating_witness :
  status Example.pending = "updating"
  ∧ ∃ s', cartReducer Example.pending (reject "timeout") = Return s'
          ∧ status s' = "idle"
          ∧ cart s' = lastValidCart Example.pending
          ∧ error s' = Some "timeout"
          ∧ (well_typed Example.pending = true → is_Some (cart s')).
Proof.
  split; [reflexivity|].
  apply (reject_while_updating Example.pending "timeout"). reflexivity.
Defined.

Lemma mutating_from_idle_witness :
  well_typed Example.idle = true
  ∧ status Example.idle = "idle"
  ∧ mutating (updateLineItem Example.updates) = true
  ∧ ∃ s' c, cartReducer Example.idle (updateLineItem Example.updates) = Return s'
            ∧ status s' = "updating"
            ∧ cart Example.idle = Some c
            ∧ lastValidCart s' = Some c.
Proof.
  do 3 (split; [reflexivity|]).
  apply (mutating_from_idle Example.idle (updateLineItem Example.updates));
    reflexivity.
Defined.

Lemma resolve_replaces_cart_witness :
  status Example.pending ∈ ["updating"; "fetching"; "creating"]
  ∧ ∃ s', cartReducer Example.pending (resolve Example.serverCart) = Return s'
          ∧ status s' = "idle"
          ∧ cart s' = Some Example.serverCart
          ∧ error s' = None
          ∧ lastValidCart s' = None.
Proof.
  assert (H : status Example.pending ∈ ["updating"; "fetching"; "creating"])
    by (simpl; left).
  split; [exact H|].
  apply (resolve_replaces_cart Example.pending Example.serverCart H).
Defined.

Lemma phase_invariant_witness :
  cartReducer Example.idle (removeLineItem ["line-2"])
    = Return (mkState "updating"
                (Some (Cart.mk (Some "cart-1") [Example.shirt] []
                         (Some "ring twice") None))
                (Some Example.basket) None)
  ∧ well_typed Example.idle = true
  ∧ phase_payload (mkState "updating"
                     (Some (Cart.mk (Some "cart-1") [Example.shirt] []
                              (Some "ring twice") None))
                     (Some Example.basket) None) = true.
Proof.
  assert (Hr : cartReducer Example.idle (removeLineItem ["line-2"])
               = Return (mkState "updating"
                   (Some (Cart.mk (Some "cart-1") [Example.shirt] []
                            (Some "ring twice") None))
                   (Some Example.basket) None)) by reflexivity.
  split; [exact Hr|]. split; [reflexivity|].
  apply (proj1 (proj2 (proj1 phase_invariant _ _ _ Hr))). reflexivity.
Defined.

Lemma lifecycle_order_witness :
  cartFetch = cartFetch
  ∧ ((∃ s', cartReducer Example.uninitialized cartFetch = Return s')
     ↔ status Example.uninitialized = "uninitialized")
  ∧ ∀ s', cartReducer Example.uninitialized cartFetch = Return s' →
          status s' = "fetching".
Proof.
  split; [reflexivity|].
  apply (proj1 (lifecycle_order Example.uninitialized cartFetch)).
  reflexivity.
Defined.

Lemma removeLineItem_filters_witness :
  status Example.idle = "idle"
  ∧ cart Example.idle = Some Example.basket
  ∧ ∃ s' c', cartReducer Example.idle (removeLineItem ["line-1"; "line-9"])
               = Return s'
    ∧ status s' = "updating"
    ∧ cart s' = Some c'
    ∧ Cart.lines c' =
        filter (λ l, CartLine.id l ∉ ["line-1"; "line-9"])
          (Cart.lines Example.basket)
    ∧ Cart.lines c' `sublist_of` Cart.lines Example.basket
    ∧ (∀ l, l ∈ Cart.lines c'
            ↔ l ∈ Cart.lines Example.basket
              ∧ CartLine.id l ∉ ["line-1"; "line-9"])
    ∧ Cart.id c' = Cart.id Example.basket
    ∧ Cart.attributes c' = Cart.attributes Example.basket
    ∧ Cart.note c' = Cart.note Example.basket
    ∧ Cart.buyerIdentity c' = Cart.buyerIdentity Example.basket
    ∧ lastValidCart s' = Some Example.basket.
Proof.
  do 2 (split; [reflexivity|]).
  apply (removeLineItem_filters Example.idle Example.basket
           ["line-1"; "line-9"]); reflexivity.
Defined.

Lemma updateLineItem_optimistic_witness :
  status Example.idle = "idle"
  ∧ cart Example.idle = Some Example.basket
  ∧ ∃ s' c', cartReducer Example.idle (updateLineItem Example.updates)
               = Return s'
    ∧ cart s' = Some c'
    ∧ lastValidCart s' = Some Example.basket
    ∧ length (Cart.lines c') = length (Cart.lines Example.basket).
Proof.
  do 2 (split; [reflexivity|]).
  destruct (updateLineItem_optimistic Example.idle Example.basket
              Example.updates eq_refl eq_refl)
    as (s' & c' & Hr & _ & Hc & Hlv & _ & _ & _ & _ & Hlen & _).
  exists s', c'. repeat split; assumption.
Defined.

Lemma reject_before_cart_witness :
  (status Example.creating = "fetching" ∨ status Example.creating = "creating")
  ∧ ∃ s', cartReducer Example.creating (reject "offline") = Return s'
          ∧ status s' = "uninitialized"
          ∧ error s' = Some "offline"
          ∧ cart s' = None
          ∧ lastValidCart s' = None.
Proof.
  split; [right; reflexivity|].
  apply (reject_before_cart Example.creating "offline").
  right. reflexivity.
Defined.

Lemma cartReducer_pure_witness :
  readState Example.store1 5%positive = Some Example.idle
  ∧ readAction Example.store1 7%positive = Some (removeLineItem ["line-1"])
  ∧ readState Example.store2 15%positive = Some Example.idle
  ∧ readAction Example.store2 11%positive = Some (removeLineItem ["line-1"])
  ∧ ∃ r1 h1' r2 h2',
      Ref.cartReducer 5%positive 7%positive Example.store1 = (r1, h1')
      ∧ Ref.cartReducer 15%positive 11%positive Example.store2 = (r2, h2')
      ∧ readOutcome h1' r1
          = Some (cartReducer Example.idle (removeLineItem ["line-1"]))
      ∧ readOutcome h2' r2
          = Some (cartReducer Example.idle (removeLineItem ["line-1"]))
      ∧ Example.store1 ⊆ h1'
      ∧ Example.store2 ⊆ h2'.
Proof.
  assert (Hs1 : readState Example.store1 5%positive = Some Example.idle)
    by (vm_compute; reflexivity).
  assert (Ha1 : readAction Example.store1 7%positive
                = Some (removeLineItem ["line-1"]))
    by (vm_compute; reflexivity).
  assert (Hs2 : readState Example.store2 15%positive = Some Example.idle)
    by (vm_compute; reflexivity).
  assert (Ha2 : readAction Example.store2 11%positive
                = Some (removeLineItem ["line-1"]))
    by (vm_compute; reflexivity).
  do 4 (split; [assumption|]).
  destruct (cartReducer_pure Example.store1 Example.store2
              5%positive 7%positive 15%positive 11%positive
              Example.idle (removeLineItem ["line-1"]) Hs1 Ha1 Hs2 Ha2)
    as (r1 & h1' & r2 & h2' & Hr1 & Hr2 & _ & Ho1 & Ho2 & Hsub1 & Hsub2 & _).
  exists r1, h1', r2, h2'. repeat split; assumption.
Defined.

(** ** Sequences of actions *)

(** A transition from a state of type [State] gives a state with the
    payload of its phase. *)
Lemma cartReducer_payload (s s' : State) (a : CartAction) :
  well_typed s = true → cartReducer s a = Return s' →
  phase_payload s' = true.
Proof.
  intros Hty Hr.
  pose proof (well_typed_idle s Hty) as Hidle.
  pose proof (well_typed_updating s Hty) as Hupd.
  unfold cartReducer in Hr.
  destruct a.
  1,2: destruct (String.eqb (status s) "uninitialized");
    [injection Hr as <-; reflexivity | discriminate Hr].
  - destruct (includes _ (status s)); [|discriminate].
    injection Hr as <-. reflexivity.
  - destruct (String.eqb (status s) "fetching" || String.eqb (status s) "creating");
      [injection Hr as <-; reflexivity|].
    destruct (String.eqb_spec (status s) "updating") as [Heq|];
      [|discriminate Hr].
    destruct (Hupd Heq) as [_ [c0 Hc]].
    injection Hr as <-. rewrite Hc. reflexivity.
  - destruct (String.eqb (status s) "fetching");
      [injection Hr as <-; reflexivity | discriminate Hr].
  - destruct (String.eqb_spec (status s) "idle") as [Heq|]; [|discriminate Hr].
    destruct (Hidle Heq) as [c0 Hc].
    injection Hr as <-. unfold updating. rewrite Hc. reflexivity.
  - destruct (String.eqb_spec (status s) "idle") as [Heq|]; [|discriminate Hr].
    destruct (Hidle Heq) as [c0 Hc]. rewrite Hc in Hr.
    injection Hr as <-. unfold updating. rewrite Hc. reflexivity.
  - destruct (String.eqb_spec (status s) "idle") as [Heq|]; [|discriminate Hr].
    destruct (Hidle Heq) as [c0 Hc]. rewrite Hc in Hr.
    injection Hr as <-. unfold updating. rewrite Hc. reflexivity.
  - destruct (String.eqb_spec (status s) "idle") as [Heq|]; [|discriminate Hr].
    destruct (Hidle Heq) as [c0 Hc].
    injection Hr as <-. unfold updating. rewrite Hc. reflexivity.
  - destruct (String.eqb_spec (status s) "idle") as [Heq|]; [|discriminate Hr].
    destruct (Hidle Heq) as [c0 Hc].
    injection Hr as <-. unfold updating. rewrite Hc. reflexivity.
  - destruct (String.eqb_spec (status s) "idle") as [Heq|]; [|discriminate Hr].
    destruct (Hidle Heq) as [c0 Hc].
    injection Hr as <-. unfold updating. rewrite Hc. reflexivity.
  - destruct (String.eqb_spec (status s) "idle") as [Heq|]; [|discriminate Hr].
    destruct (Hidle Heq) as [c0 Hc].
    injection Hr as <-. unfold updating. rewrite Hc. reflexivity.
Qed.

Lemma dispatchAll_payload (actions : list CartAction) (s s' : State) :
  phase_payload s = true → dispatchAll s actions = Return s' →
  phase_payload s' = true.
Proof.
  revert s. induction actions as [|a rest IH]; simpl; intros s Hs Hr.
  - now injection Hr as <-.
  - destruct (cartReducer s a) as [s1|] eqn:Ha; [|discriminate].
    apply (IH s1); [|assumption].
    eapply cartReducer_payload; [|eassumption].
    now apply phase_payload_well_typed.
Qed.

(** A transition from 'idle' or 'updating' leads to 'idle' or
    'updating'. *)
Lemma cartReducer_keeps_cart_phase (s s' : State) (a : CartAction) :
  status s = "idle" ∨ status s = "updating" →
  cartReducer s a = Return s' →
  status s' = "idle" ∨ status s' = "updating".
Proof.
  intros Hst Hr. apply cartReducer_Return in Hr.
  destruct Hr as
    [(_ & Hs & _)|[(_ & Hs & _)|[(_ & _ & Hs')|[(_ & Hs & _)
    |[(_ & _ & Hs')|[(_ & Hs & _)|(_ & _ & Hs')]]]]]];
    try (now left); try (now right);
    destruct Hst as [H1|H1]; try destruct Hs as [Hs|Hs]; congruence.
Qed.

Section Sequences.
Context {G : Schema}.

(** X1: every state that the provider reaches from its initial state,
    by whatever actions are dispatched, carries the payload of its
    phase. *)
Theorem reachable_phase_payload (props : Props.t)
    (actions : list CartAction) (s' : State)
    (Hrun : dispatchAll (CartProvider.initialStatus props) actions = Return s') :
  phase_payload s' = true.
Proof.
  eapply dispatchAll_payload; [|eassumption].
  unfold CartProvider.initialStatus. destruct (Props.cart props); reflexivity.
Qed.

Lemma dispatchAll_keeps_cart (actions : list CartAction) (s s' : State) :
  well_typed s = true →
  status s = "idle" ∨ status s = "updating" →
  dispatchAll s actions = Return s' →
  (status s' = "idle" ∨ status s' = "updating") ∧ is_Some (cart s').
Proof.
  revert s. induction actions as [|a rest IH]; simpl; intros s Hty Hst Hrun.
  - injection Hrun as <-. split; [assumption|].
    destruct Hst as [Hst|Hst].
    + now apply well_typed_idle.
    + now apply well_typed_updating.
  - destruct (cartReducer s a) as [s1|] eqn:Ha; [|discriminate].
    apply (IH s1); [|eauto using cartReducer_keeps_cart_phase|assumption].
    eapply phase_payload_well_typed, cartReducer_payload; eassumption.
Qed.

(** X2: a provider that has a cart never gets to a state without one:
    from 'idle' or 'updating' every sequence of actions that the reducer
    accepts ends in 'idle' or 'updating', with a cart. *)
Theorem cart_never_lost (s s' : State) (actions : list CartAction)
    (Hty : well_typed s = true)
    (Hst : status s = "idle" ∨ status s = "updating")
    (Hrun : dispatchAll s actions = Return s') :
  (status s' = "idle" ∨ status s' = "updating") ∧ is_Some (cart s').
Proof. exact (dispatchAll_keeps_cart actions s s' Hty Hst Hrun). Qed.

End Sequences.

(** ** Optimistic updates and their end *)

(** In an 'idle' state with a cart a mutating action shows some cart and
    keeps the state's cart beside it. *)
Lemma mutating_idle_updating (s : State) (c : Cart.t) (a : CartAction) :
  status s = "idle" → cart s = Some c → mutating a = true →
  ∃ c', cartReducer s a = Return (updating (Some c') s).
Proof.
  intros Hst Hc Ha.
  destruct a; try discriminate Ha; unfold cartReducer;
    rewrite Hst; simpl; rewrite ?Hc; eauto.
Qed.

(** X3: an optimistic update that is rejected is undone: whatever the
    mutating action showed, after 'reject' the state is 'idle' with the
    cart it had before and the error of the rejection. *)
Theorem rejected_mutation_restores_cart (s : State) (c : Cart.t)
    (a : CartAction) (e : string)
    (Hst : status s = "idle") (Hc : cart s = Some c)
    (Ha : mutating a = true) :
  dispatchAll s [a; reject e]
  = Return {| status := "idle"; cart := Some c;
              lastValidCart := None; error := Some e |}.
Proof.
  destruct (mutating_idle_updating s c a Hst Hc Ha) as [c' Hr].
  simpl. rewrite Hr. simpl. now rewrite Hc.
Qed.

(** X4: mutations do not queue: a second mutating action that arrives
    before the first is resolved or rejected makes the reducer throw, for
    the second action and the phase 'updating'. *)
Theorem second_mutation_throws (s : State) (c : Cart.t) (a b : CartAction)
    (Hst : status s = "idle") (Hc : cart s = Some c)
    (Ha : mutating a = true) (Hb : mutating b = true) :
  dispatchAll s [a; b]
  = Throw (Error ("Cannot dispatch event (" +:+ type b +:+
                  ") for current cart state (updating)")).
Proof.
  destruct (mutating_idle_updating s c a Hst Hc Ha) as [c' Hr].
  simpl. rewrite Hr. destruct b; try discriminate Hb; reflexivity.
Qed.

(** X5: a 'removeLineItem' whose ids name no line of the cart, the empty
    list among them, shows the cart as it is. *)
Theorem remove_unknown_ids_keeps_cart (s : State) (c : Cart.t)
    (ids : list string)
    (Hst : status s = "idle") (Hc : cart s = Some c)
    (Hids : ∀ l, l ∈ Cart.lines c → CartLine.id l ∉ ids) :
  cartReducer s (removeLineItem ids)
  = Return {| status := "updating"; cart := Some c;
              lastValidCart := Some c; error := None |}.
Proof.
  unfold cartReducer, updating. rewrite Hst, Hc. simpl.
  assert (Hf : List.filter (λ l, negb (includes ids (CartLine.id l)))
                 (Cart.lines c) = Cart.lines c).
  { induction (Cart.lines c) as [|l ls IH]; [reflexivity|]. simpl.
    assert (Hl : includes ids (CartLine.id l) = false)
      by (apply includes_not_elem_of, Hids; left).
    rewrite Hl. simpl. f_equal. apply IH.
    intros l' Hl'. apply Hids. now right. }
  rewrite Hf. destruct c. reflexivity.
Qed.

(** The optimistic cart of 'removeLineItem' and of 'updateLineItem'. *)
Lemma removeLineItem_idle (s : State) (c : Cart.t) (ids : list string) :
  status s = "idle" → cart s = Some c →
  cartReducer s (removeLineItem ids)
  = Return (updating
      (Some (Cart.with_lines c
         (List.filter (λ l, negb (includes ids (CartLine.id l)))
            (Cart.lines c)))) s).
Proof. intros Hst Hc. unfold cartReducer. now rewrite Hst, Hc. Qed.

Lemma updateLineItem_idle (s : State) (c : Cart.t)
    (updates : list CartLineUpdateInput.t) :
  status s = "idle" → cart s = Some c →
  cartReducer s (updateLineItem updates)
  = Return (updating
      (Some (Cart.with_lines c
         (List.map (updateLine updates) (Cart.lines c)))) s).
Proof. intros Hst Hc. unfold cartReducer. now rewrite Hst, Hc. Qed.

Lemma updateLine_idempotent (updates : list CartLineUpdateInput.t)
    (line : CartLine.t) :
  updateLine updates (updateLine updates line) = updateLine updates line.
Proof.
  destruct (updateLine_cases updates line)
    as [[Hsame _] | (pre & u & post & -> & Hpre & Hu & Hr)].
  - now rewrite Hsame.
  - destruct (CartLineUpdateInput.quantity u) as [q|] eqn:Hq;
      [|now rewrite !Hr].
    destruct (decide (q ≠ 0%Z)) as [Hq0|Hq0].
    + rewrite bool_decide_eq_true_2 in Hr by assumption. rewrite Hr.
      rewrite (updateLine_first pre post u (CartLine.with_quantity line q));
        [|assumption..].
      rewrite Hq, bool_decide_eq_true_2 by assumption. reflexivity.
    + rewrite bool_decide_eq_false_2 in Hr by assumption. now rewrite !Hr.
Qed.

Lemma filter_removed_idempotent (ids : list string) (ls : list CartLine.t) :
  List.filter (λ l, negb (includes ids (CartLine.id l)))
    (List.filter (λ l, negb (includes ids (CartLine.id l))) ls)
  = List.filter (λ l, negb (includes ids (CartLine.id l))) ls.
Proof.
  induction ls as [|l ls IH]; [reflexivity|]. simpl.
  destruct (includes ids (CartLine.id l)) eqn:Hl; simpl;
    [|rewrite Hl; simpl; f_equal]; apply IH.
Qed.

(** X6: the optimistic cart of a 'removeLineItem' or 'updateLineItem' is
    stable under the action: in an 'idle' state that holds the cart the
    action showed, the same action shows that cart again. *)
Theorem optimistic_cart_is_stable (s s1 t : State) (c1 : Cart.t)
    (a : CartAction)
    (Ha : (∃ ids, a = removeLineItem ids) ∨ (∃ us, a = updateLineItem us))
    (Hr : cartReducer s a = Return s1) (Hc1 : cart s1 = Some c1)
    (Ht : status t = "idle") (Htc : cart t = Some c1) :
  ∃ t1, cartReducer t a = Return t1 ∧ cart t1 = Some c1.
Proof.
  assert (Hst : status s = "idle").
  { destruct Ha as [[ids ->] | [us ->]]; invert_Return Hr; assumption. }
  assert (Hc : ∃ c, cart s = Some c).
  { destruct (cart s) as [c|] eqn:Hc; [eauto|].
    destruct Ha as [[ids ->] | [us ->]]; unfold cartReducer in Hr;
      rewrite Hst, Hc in Hr; discriminate. }
  destruct Hc as [c Hc].
  destruct Ha as [[ids ->] | [us ->]].
  - rewrite (removeLineItem_idle s c ids Hst Hc) in Hr. injection Hr as <-.
    simpl in Hc1. injection Hc1 as <-.
    rewrite (removeLineItem_idle t _ ids Ht Htc).
    eexists. split; [reflexivity|]. simpl. f_equal.
    unfold Cart.with_lines. simpl. f_equal.
    apply filter_removed_idempotent.
  - rewrite (updateLineItem_idle s c us Hst Hc) in Hr. injection Hr as <-.
    simpl in Hc1. injection Hc1 as <-.
    rewrite (updateLineItem_idle t _ us Ht Htc).
    eexists. split; [reflexivity|]. simpl. f_equal.
    unfold Cart.with_lines. simpl. f_equal.
    rewrite List.map_map. apply List.map_ext.
    intros l. apply updateLine_idempotent.
Qed.

(** ** The callbacks of the provider *)

Section Callbacks.
Context {G : Schema} (props : Props.t).

(** The events of a mutating entry called on an 'idle' state with a
    cart: the dispatch of its action, the callback property if given, the
    request, and what [settle] does with the response. *)
Lemma call_idle_events (state : State) (c : Cart.t) (entry : Entry.t)
    (fetch : Request → Response.t) :
  status state = "idle" → cart state = Some c →
  ∃ a given prop req,
    mutating a = true
    ∧ events (CartProvider.call props state entry) fetch
      = Dispatch a
        :: ((if given : bool then [Call prop] else [])
            ++ Send req
               :: events (CartProvider.settle false (fetch req)) fetch)%list.
Proof.
  intros Hst Hc.
  destruct entry; simpl;
    [ unfold CartProvider.addLineItem
    | unfold CartProvider.removeLineItem
    | unfold CartProvider.updateLineItem
    | unfold CartProvider.noteUpdate
    | unfold CartProvider.buyerIdentityUpdate
    | unfold CartProvider.cartAttributesUpdate
    | unfold CartProvider.discountCodesUpdate ];
    rewrite Hst; simpl; unfold CartProvider.request; rewrite Hc;
    match goal with
    | |- context [optional ?g ?p _] =>
        match goal with
        | |- context [Dispatch ?a] =>
            match goal with
            | |- context [Await ?r _] =>
                exists a, g, p, r; split; [reflexivity|];
                unfold optional; destruct g; reflexivity
            end
        end
    end.
Qed.

(** The actions that [settle] dispatches. *)
Lemma settle_dispatched (stored : bool) (r : Response.t)
    (fetch : Request → Response.t) :
  dispatched (events (CartProvider.settle stored r) fetch)
  = (match Response.error r with Some e => [reject e] | None => [] end
     ++ match mutationCart (Response.data r) with
        | Some c => [resolve (cartFromGraphQL c)]
        | None => []
        end)%list.
Proof.
  unfold CartProvider.settle.
  destruct (Response.error r), (mutationCart (Response.data r)), stored;
    reflexivity.
Qed.

Lemma dispatched_app (es1 es2 : list Event) :
  dispatched (es1 ++ es2) = (dispatched es1 ++ dispatched es2)%list.
Proof.
  induction es1 as [|[] es1 IH]; simpl; rewrite ?IH; reflexivity.
Qed.

(** The actions of a mutating entry called on an 'idle' state with a
    cart. *)
Lemma call_idle_dispatched (state : State) (c : Cart.t) (entry : Entry.t)
    (fetch : Request → Response.t) (r : Response.t) :
  status state = "idle" → cart state = Some c → (∀ req, fetch req = r) →
  ∃ a, mutating a = true
       ∧ dispatched (events (CartProvider.call props state entry) fetch)
         = (a :: match Response.error r with Some e => [reject e] | None => [] end
              ++ match mutationCart (Response.data r) with
                 | Some c => [resolve (cartFromGraphQL c)]
                 | None => []
                 end)%list.
Proof.
  intros Hst Hc Hfetch.
  destruct (call_idle_events state c entry fetch Hst Hc)
    as (a & given & prop & req & Ha & Hev).
  exists a. split; [assumption|].
  rewrite Hev. simpl. rewrite dispatched_app. simpl.
  rewrite settle_dispatched, Hfetch. now destruct given.
Qed.

(** X7: on a state that is not 'idle' the seven mutating entries of the
    context do nothing: no action is dispatched, no callback property is
    called and no request is sent. *)
Theorem call_outside_idle_does_nothing (state : State) (entry : Entry.t)
    (fetch : Request → Response.t)
    (Hst : status state ≠ "idle") :
  events (CartProvider.call props state entry) fetch = [].
Proof.
  apply String.eqb_neq in Hst.
  destruct entry; simpl;
    [ unfold CartProvider.addLineItem
    | unfold CartProvider.removeLineItem
    | unfold CartProvider.updateLineItem
    | unfold CartProvider.noteUpdate
    | unfold CartProvider.buyerIdentityUpdate
    | unfold CartProvider.cartAttributesUpdate
    | unfold CartProvider.discountCodesUpdate ];
    rewrite Hst; reflexivity.
Qed.

(** X8: a mutation that fails, with an error and no cart in the
    response, ends in 'idle' with the cart as it was before the call and
    the error. *)
Theorem failed_mutation_outcome (state : State) (c : Cart.t)
    (entry : Entry.t) (fetch : Request → Response.t) (r : Response.t)
    (e : string)
    (Hst : status state = "idle") (Hc : cart state = Some c)
    (Hfetch : ∀ req, fetch req = r)
    (He : Response.error r = Some e)
    (Hcart : mutationCart (Response.data r) = None) :
  dispatchAll state
    (dispatched (events (CartProvider.call props state entry) fetch))
  = Return {| status := "idle"; cart := Some c;
              lastValidCart := None; error := Some e |}.
Proof.
  destruct (call_idle_dispatched state c entry fetch r Hst Hc Hfetch)
    as (a & Ha & ->).
  rewrite He, Hcart.
  destruct (mutating_idle_updating state c a Hst Hc Ha) as [c' Hr].
  simpl. rewrite Hr. simpl. now rewrite Hc.
Qed.

(** X9: a mutation that succeeds, with a cart and no error in the
    response, ends in 'idle' with the cart of the response and without
    error, whatever was shown in between. *)
Theorem successful_mutation_outcome (state : State) (c : Cart.t)
    (entry : Entry.t) (fetch : Request → Response.t) (r : Response.t)
    (f : CartFragment.t)
    (Hst : status state = "idle") (Hc : cart state = Some c)
    (Hfetch : ∀ req, fetch req = r)
    (He : Response.error r = None)
    (Hcart : mutationCart (Response.data r) = Some f) :
  dispatchAll state
    (dispatched (events (CartProvider.call props state entry) fetch))
  = Return {| status := "idle"; cart := Some (cartFromGraphQL f);
              lastValidCart := None; error := None |}.
Proof.
  destruct (call_idle_dispatched state c entry fetch r Hst Hc Hfetch)
    as (a & Ha & ->).
  rewrite He, Hcart.
  destruct (mutating_idle_updating state c a Hst Hc Ha) as [c' Hr].
  simpl. rewrite Hr. reflexivity.
Qed.

(** X10: a response with both an error and a cart makes the reducer
    throw: the callback dispatches 'reject' and then 'resolve', and
    'resolve' arrives in 'idle'. *)
Theorem error_and_cart_throws (state : State) (c : Cart.t)
    (entry : Entry.t) (fetch : Request → Response.t) (r : Response.t)
    (e : string) (f : CartFragment.t)
    (Hst : status state = "idle") (Hc : cart state = Some c)
    (Hfetch : ∀ req, fetch req = r)
    (He : Response.error r = Some e)
    (Hcart : mutationCart (Response.data r) = Some f) :
  dispatchAll state
    (dispatched (events (CartProvider.call props state entry) fetch))
  = Throw (Error "Cannot dispatch event (resolve) for current cart state (idle)").
Proof.
  destruct (call_idle_dispatched state c entry fetch r Hst Hc Hfetch)
    as (a & Ha & ->).
  rewrite He, Hcart.
  destruct (mutating_idle_updating state c a Hst Hc Ha) as [c' Hr].
  simpl. rewrite Hr. reflexivity.
Qed.

(** X11: a response with neither an error nor a cart leaves the state
    in 'updating': nothing is dispatched after the optimistic action, and
    in that state every mutating entry of the context does nothing. *)
Theorem empty_response_leaves_updating (state : State) (c : Cart.t)
    (entry : Entry.t) (fetch : Request → Response.t) (r : Response.t)
    (Hst : status state = "idle") (Hc : cart state = Some c)
    (Hfetch : ∀ req, fetch req = r)
    (He : Response.error r = None)
    (Hcart : mutationCart (Response.data r) = None) :
  ∃ s', dispatchAll state
          (dispatched (events (CartProvider.call props state entry) fetch))
        = Return s'
        ∧ status s' = "updating"
        ∧ lastValidCart s' = Some c
        ∧ ∀ entry' fetch', events (CartProvider.call props s' entry') fetch' = [].
Proof.
  destruct (call_idle_dispatched state c entry fetch r Hst Hc Hfetch)
    as (a & Ha & ->).
  rewrite He, Hcart.
  destruct (mutating_idle_updating state c a Hst Hc Ha) as [c' Hr].
  simpl. rewrite Hr. eexists. split; [reflexivity|].
  split; [reflexivity|]. split; [exact Hc|].
  intros entry' fetch'.
  destruct entry'; reflexivity.
Qed.


(** X18: two mutating entries called on the state of one render, each
    before the other's request is answered, make the reducer throw: the
    second action arrives in 'updating'. *)
Theorem calls_from_one_render_throw (state : State) (c : Cart.t)
    (first second : Entry.t)
    (Hst : status state = "idle") (Hc : cart state = Some c) :
  ∃ b, dispatched (synchronous (CartProvider.call props state second)) = [b]
       ∧ dispatchAll state
           (dispatched (synchronous (CartProvider.call props state first)
                        ++ synchronous (CartProvider.call props state second)))
         = Throw (Error ("Cannot dispatch event (" +:+ type b +:+
                         ") for current cart state (updating)")).
Proof.
  assert (Hsync : ∀ entry, ∃ a, mutating a = true
            ∧ dispatched (synchronous (CartProvider.call props state entry))
              = [a]).
  { intros entry.
    destruct entry; simpl;
      [ unfold CartProvider.addLineItem
      | unfold CartProvider.removeLineItem
      | unfold CartProvider.updateLineItem
      | unfold CartProvider.noteUpdate
      | unfold CartProvider.buyerIdentityUpdate
      | unfold CartProvider.cartAttributesUpdate
      | unfold CartProvider.discountCodesUpdate ];
      rewrite Hst; simpl; unfold CartProvider.request, optional; rewrite Hc;
      match goal with |- context [if ?g then Do _ _ else _] =>
        destruct g end; simpl; eexists; (split; [|reflexivity]); reflexivity. }
  destruct (Hsync first) as (a & Ha & Hda).
  destruct (Hsync second) as (b & Hb & Hdb).
  exists b. split; [assumption|].
  rewrite dispatched_app, Hda, Hdb.
  destruct (mutating_idle_updating state c a Hst Hc Ha) as [c' Hr].
  simpl. rewrite Hr. destruct b; try discriminate Hb; reflexivity.
Qed.

(** X13: fetching the stored cart never shows an error: from
    'uninitialized' it ends in 'idle' with the cart of the response, or,
    when the response has no cart (whatever its error), in 'uninitialized'
    without error after removing the stored id; 'reject' is never
    dispatched. *)
Theorem cartFetch_outcome (state : State) (cartId : string)
    (fetch : Request → Response.t)
    (Hst : status state = "uninitialized") :
  let es := events (CartProvider.cartFetch props cartId) fetch in
  let r := fetch (CartQuery cartId (Props.numCartLines props)) in
  (∀ e, reject e ∉ dispatched es)
  ∧ match queryCart (Response.data r) with
    | Some f =>
        dispatchAll state (dispatched es)
        = Return {| status := "idle"; cart := Some (cartFromGraphQL f);
                    lastValidCart := None; error := None |}
        ∧ RemoveItem ∉ es
    | None =>
        dispatchAll state (dispatched es)
        = Return {| status := "uninitialized"; cart := None;
                    lastValidCart := None; error := None |}
        ∧ RemoveItem ∈ es
    end.
Proof.
  intros es r. subst es r. unfold CartProvider.cartFetch.
  assert (H1 : cartReducer state cartFetch
               = Return {| status := "fetching"; cart := None;
                           lastValidCart := None; error := None |})
    by (unfold cartReducer; now rewrite Hst).
  cbn [events].
  destruct (queryCart _) as [f|]; cbn [events dispatched dispatchAll];
    rewrite H1.
  - split; [|split; [reflexivity|]].
    + intros e He. repeat (apply elem_of_cons in He as [He|He]; [discriminate|]).
      inversion He.
    + intros He. repeat (apply elem_of_cons in He as [He|He]; [discriminate|]).
      inversion He.
  - split; [|split; [reflexivity|]].
    + intros e He. repeat (apply elem_of_cons in He as [He|He]; [discriminate|]).
      inversion He.
    + do 2 right. left.
Qed.

(** X14: creating a cart from 'uninitialized': an error without a cart
    ends in 'uninitialized' with the error; a cart without an error ends
    in 'idle' with that cart; neither leaves the state in 'creating'; both
    make the reducer throw, because 'resolve' arrives in 'uninitialized'. *)
Theorem cartCreate_outcome (state : State) (input : CartInput)
    (fetch : Request → Response.t)
    (Hst : status state = "uninitialized") :
  let es := events (CartProvider.cartCreate props input) fetch in
  let r := fetch (CartCreate input (Props.numCartLines props)) in
  dispatchAll state (dispatched es)
  = match Response.error r, mutationCart (Response.data r) with
    | Some e, None =>
        Return {| status := "uninitialized"; cart := None;
                  lastValidCart := None; error := Some e |}
    | None, Some f =>
        Return {| status := "idle"; cart := Some (cartFromGraphQL f);
                  lastValidCart := None; error := None |}
    | None, None =>
        Return {| status := "creating"; cart := None;
                  lastValidCart := None; error := None |}
    | Some e, Some f =>
        Throw (Error "Cannot dispatch event (resolve) for current cart state (uninitialized)")
    end.
Proof.
  intros es r. subst es r. unfold CartProvider.cartCreate, optional.
  assert (H1 : cartReducer state cartCreate
               = Return {| status := "creating"; cart := None;
                           lastValidCart := None; error := None |})
    by (unfold cartReducer; now rewrite Hst).
  assert (Hd : ∀ k, dispatched (events (if Props.onCreate props
                       then Do (Call "onCreate") k else k) fetch)
                    = dispatched (events k fetch))
    by (intros k; destruct (Props.onCreate props); reflexivity).
  cbn [events dispatched]. rewrite Hd. cbn [events dispatched].
  rewrite settle_dispatched. cbn [dispatchAll]. rewrite H1.
  destruct (Response.error _), (mutationCart _); reflexivity.
Qed.

(** X15: [cartCreate] stores a cart id exactly when the response has a
    cart, and it stores the id of that cart, also when the response has
    an error beside it. *)
Theorem cartCreate_stores_cart_id (input : CartInput)
    (fetch : Request → Response.t) (value : string) :
  let r := fetch (CartCreate input (Props.numCartLines props)) in
  SetItem value ∈ events (CartProvider.cartCreate props input) fetch
  ↔ ∃ f, mutationCart (Response.data r) = Some f ∧ CartFragment.id f = value.
Proof.
  intros r. unfold CartProvider.cartCreate, optional, CartProvider.settle.
  destruct (Props.onCreate props); cbn [events]; fold r;
    destruct (Response.error r), (mutationCart (Response.data r)) as [f|];
    cbn [events]; split;
    try (intros H;
         repeat (apply elem_of_cons in H as [H|H];
                 [first [discriminate
                        | injection H as ->; eexists; split; reflexivity]|]);
         now inversion H);
    try (intros (f' & Hf & <-); first [discriminate | injection Hf as <-]);
    repeat first [now left | right].
Qed.

End Callbacks.

(** ** The effect and the context value *)

Lemma renders_after_fetch (runs : list (option string * State)) :
  omap id (CartProvider.renders runs true) = [].
Proof.
  induction runs as [|[item state] rest IH]; [reflexivity|].
  simpl. unfold CartProvider.useEffect.
  destruct item as [cartId|]; [rewrite !andb_false_r|]; exact IH.
Qed.

(** X16: over the renders of one provider the effect calls [cartFetch]
    at most once, and only with a stored id that is not empty, in a render
    whose state is 'uninitialized'. *)
Theorem stored_cart_fetched_once (runs : list (option string * State)) :
  (length (omap id (CartProvider.renders runs false)) ≤ 1)%nat
  ∧ ∀ i cartId,
      CartProvider.renders runs false !! i = Some (Some cartId) →
      cartId ≠ ""
      ∧ ∃ state, runs !! i = Some (Some cartId, state)
                 ∧ status state = "uninitialized".
Proof.
  induction runs as [|[item state] rest [IH1 IH2]]; simpl.
  - split; [lia|]. intros i cartId Hi. destruct i; discriminate.
  - unfold CartProvider.useEffect.
    destruct item as [cartId|].
    + destruct (String.eqb_spec cartId "") as [->|Hne]; simpl.
      * split; [exact IH1|]. intros [|i] c Hi; [discriminate|].
        now apply IH2.
      * destruct (String.eqb_spec (status state) "uninitialized") as [Hst|Hst];
          simpl.
        -- rewrite renders_after_fetch. split; [simpl; lia|].
           intros [|i] c Hi.
           ++ injection Hi as <-. split; [assumption|]. now exists state.
           ++ exfalso. simpl in Hi.
              assert (Hin : c ∈ omap id (CartProvider.renders rest true)).
              { apply list_elem_of_omap. exists (Some c). split; [|reflexivity].
                apply list_elem_of_lookup. now exists i. }
              rewrite renders_after_fetch in Hin. inversion Hin.
        -- split; [exact IH1|]. intros [|i] c Hi; [discriminate|].
           now apply IH2.
    + split; [exact IH1|]. intros [|i] c Hi; [discriminate|]. now apply IH2.
Qed.

Section ContextValue.
Context {G : Schema} (props : Props.t).


End ContextValue.

(** ** The further theorems on the sample states *)

Lemma reachable_phase_payload_witness :
  dispatchAll (CartProvider.initialStatus ProviderExample.seeded)
    [removeLineItem ["line-2"]; reject "throttled"; addLineItem]
  = Return (mkState "updating"
              (Some (cartFromGraphQL ProviderExample.fragment))
              (Some (cartFromGraphQL ProviderExample.fragment)) None)
  ∧ phase_payload
      (mkState "updating"
         (Some (cartFromGraphQL ProviderExample.fragment))
         (Some (cartFromGraphQL ProviderExample.fragment)) None) = true.
Proof.
  assert (Hrun : dispatchAll (CartProvider.initialStatus ProviderExample.seeded)
                   [removeLineItem ["line-2"]; reject "throttled"; addLineItem]
                 = Return (mkState "updating"
                     (Some (cartFromGraphQL ProviderExample.fragment))
                     (Some (cartFromGraphQL ProviderExample.fragment)) None))
    by reflexivity.
  split; [exact Hrun|].
  exact (reachable_phase_payload ProviderExample.seeded _ _ Hrun).
Defined.

Lemma cart_never_lost_witness :
  well_typed Example.idle = true
  ∧ (status Example.idle = "idle" ∨ status Example.idle = "updating")
  ∧ dispatchAll Example.idle [noteUpdate; resolve Example.serverCart]
    = Return (mkState "idle" (Some Example.serverCart) None None)
  ∧ (status (mkState "idle" (Some Example.serverCart) None None) = "idle"
     ∨ status (mkState "idle" (Some Example.serverCart) None None) = "updating")
  ∧ is_Some (cart (mkState "idle" (Some Example.serverCart) None None)).
Proof.
  assert (Hrun : dispatchAll Example.idle [noteUpdate; resolve Example.serverCart]
                 = Return (mkState "idle" (Some Example.serverCart) None None))
    by reflexivity.
  split; [reflexivity|]. split; [left; reflexivity|]. split; [exact Hrun|].
  exact (cart_never_lost Example.idle _ _ eq_refl (or_introl eq_refl) Hrun).
Defined.

Lemma rejected_mutation_restores_cart_witness :
  status Example.idle = "idle"
  ∧ cart Example.idle = Some Example.basket
  ∧ mutating (removeLineItem ["line-1"]) = true
  ∧ dispatchAll Example.idle [removeLineItem ["line-1"]; reject "throttled"]
    = Return {| status := "idle"; cart := Some Example.basket;
                lastValidCart := None; error := Some "throttled" |}.
Proof.
  do 3 (split; [reflexivity|]).
  exact (rejected_mutation_restores_cart Example.idle Example.basket
           (removeLineItem ["line-1"]) "throttled" eq_refl eq_refl eq_refl).
Defined.

Lemma second_mutation_throws_witness :
  status Example.idle = "idle"
  ∧ cart Example.idle = Some Example.basket
  ∧ mutating addLineItem = true
  ∧ mutating noteUpdate = true
  ∧ dispatchAll Example.idle [addLineItem; noteUpdate]
    = Throw (Error ("Cannot dispatch event (" +:+ type noteUpdate +:+
                    ") for current cart state (updating)")).
Proof.
  do 4 (split; [reflexivity|]).
  exact (second_mutation_throws Example.idle Example.basket
           addLineItem noteUpdate eq_refl eq_refl eq_refl eq_refl).
Defined.

Lemma remove_unknown_ids_keeps_cart_witness :
  status Example.idle = "idle"
  ∧ cart Example.idle = Some Example.basket
  ∧ (∀ l, l ∈ Cart.lines Example.basket → CartLine.id l ∉ ([] : list string))
  ∧ cartReducer Example.idle (removeLineItem [])
    = Return {| status := "updating"; cart := Some Example.basket;
                lastValidCart := Some Example.basket; error := None |}.
Proof.
  assert (Hids : ∀ l, l ∈ Cart.lines Example.basket
                      → CartLine.id l ∉ ([] : list string))
    by (intros l _ H; inversion H).
  do 2 (split; [reflexivity|]). split; [exact Hids|].
  exact (remove_unknown_ids_keeps_cart Example.idle Example.basket []
           eq_refl eq_refl Hids).
Defined.

Lemma optimistic_cart_is_stable_witness :
  cartReducer Example.idle (updateLineItem Example.updates)
  = Return (updating (Some ProviderExample.restocked) Example.idle)
  ∧ ∃ t1,
      cartReducer ProviderExample.confirmed (updateLineItem Example.updates)
      = Return t1
      ∧ cart t1 = Some ProviderExample.restocked.
Proof.
  split; [reflexivity|].
  exact (optimistic_cart_is_stable Example.idle
           (updating (Some ProviderExample.restocked) Example.idle)
           ProviderExample.confirmed ProviderExample.restocked
           (updateLineItem Example.updates)
           (or_intror (ex_intro _ Example.updates eq_refl))
           eq_refl eq_refl eq_refl eq_refl).
Defined.

Lemma call_outside_idle_does_nothing_witness :
  status Example.pending ≠ "idle"
  ∧ events (CartProvider.call ProviderExample.props Example.pending
              (Entry.linesRemove ["line-1"]))
      (λ _, ProviderExample.success) = [].
Proof.
  assert (Hst : status Example.pending ≠ "idle") by discriminate.
  split; [exact Hst|].
  exact (call_outside_idle_does_nothing ProviderExample.props Example.pending
           (Entry.linesRemove ["line-1"]) (λ _, ProviderExample.success) Hst).
Defined.

Lemma failed_mutation_outcome_witness :
  dispatchAll Example.idle
    (dispatched
       (events (CartProvider.call ProviderExample.props Example.idle
                  (Entry.linesUpdate Example.updates))
          (λ _, ProviderExample.failure)))
  = Return {| status := "idle"; cart := Some Example.basket;
              lastValidCart := None; error := Some "throttled" |}.
Proof.
  exact (failed_mutation_outcome ProviderExample.props Example.idle
           Example.basket (Entry.linesUpdate Example.updates)
           (λ _, ProviderExample.failure) ProviderExample.failure "throttled"
           eq_refl eq_refl (λ _, eq_refl) eq_refl eq_refl).
Defined.

Lemma successful_mutation_outcome_witness :
  dispatchAll Example.idle
    (dispatched
       (events (CartProvider.call ProviderExample.props Example.idle
                  (Entry.linesRemove ["line-1"]))
          (λ _, ProviderExample.success)))
  = Return {| status := "idle";
              cart := Some (cartFromGraphQL ProviderExample.fragment);
              lastValidCart := None; error := None |}.
Proof.
  exact (successful_mutation_outcome ProviderExample.props Example.idle
           Example.basket (Entry.linesRemove ["line-1"])
           (λ _, ProviderExample.success) ProviderExample.success
           ProviderExample.fragment
           eq_refl eq_refl (λ _, eq_refl) eq_refl eq_refl).
Defined.

Lemma error_and_cart_throws_witness :
  dispatchAll Example.idle
    (dispatched
       (events (CartProvider.call ProviderExample.props Example.idle
                  ProviderExample.addVariant)
          (λ _, ProviderExample.partial)))
  = Throw (Error "Cannot dispatch event (resolve) for current cart state (idle)").
Proof.
  exact (error_and_cart_throws ProviderExample.props Example.idle
           Example.basket ProviderExample.addVariant
           (λ _, ProviderExample.partial) ProviderExample.partial
           "throttled" ProviderExample.fragment
           eq_refl eq_refl (λ _, eq_refl) eq_refl eq_refl).
Defined.

Lemma empty_response_leaves_updating_witness :
  ∃ s', dispatchAll Example.idle
          (dispatched
             (events (CartProvider.call ProviderExample.props Example.idle
                        ProviderExample.leaveNote)
                (λ _, ProviderExample.userErrors)))
        = Return s'
        ∧ status s' = "updating"
        ∧ lastValidCart s' = Some Example.basket
        ∧ ∀ entry' fetch',
            events (CartProvider.call ProviderExample.props s' entry') fetch'
            = [].
Proof.
  exact (empty_response_leaves_updating ProviderExample.props Example.idle
           Example.basket ProviderExample.leaveNote
           (λ _, ProviderExample.userErrors) ProviderExample.userErrors
           eq_refl eq_refl (λ _, eq_refl) eq_refl eq_refl).
Defined.

Lemma calls_from_one_render_throw_witness :
  ∃ b, dispatched
         (synchronous (CartProvider.call ProviderExample.props Example.idle
                         (Entry.linesRemove ["line-2"]))) = [b]
       ∧ dispatchAll Example.idle
           (dispatched
              (synchronous (CartProvider.call ProviderExample.props Example.idle
                              ProviderExample.addVariant)
               ++ synchronous (CartProvider.call ProviderExample.props
                                 Example.idle (Entry.linesRemove ["line-2"]))))
         = Throw (Error ("Cannot dispatch event (" +:+ type b +:+
                         ") for current cart state (updating)")).
Proof.
  exact (calls_from_one_render_throw ProviderExample.props Example.idle
           Example.basket ProviderExample.addVariant
           (Entry.linesRemove ["line-2"]) eq_refl eq_refl).
Defined.

Lemma cartFetch_outcome_witness :
  status Example.uninitialized = "uninitialized"
  ∧ dispatchAll Example.uninitialized
      (dispatched (events (CartProvider.cartFetch ProviderExample.props "cart-1")
                     (λ _, ProviderExample.missing)))
    = Return {| status := "uninitialized"; cart := None;
                lastValidCart := None; error := None |}
  ∧ RemoveItem ∈ events (CartProvider.cartFetch ProviderExample.props "cart-1")
                   (λ _, ProviderExample.missing).
Proof.
  split; [reflexivity|].
  exact (proj2 (cartFetch_outcome ProviderExample.props Example.uninitialized
                  "cart-1" (λ _, ProviderExample.missing) eq_refl)).
Defined.

Lemma cartCreate_outcome_witness :
  status Example.uninitialized = "uninitialized"
  ∧ dispatchAll Example.uninitialized
      (dispatched (events (CartProvider.cartCreate ProviderExample.props
                             ProviderExample.newCart)
                     (λ _, ProviderExample.partial)))
    = Throw (Error "Cannot dispatch event (resolve) for current cart state (uninitialized)").
Proof.
  split; [reflexivity|].
  exact (cartCreate_outcome ProviderExample.props Example.uninitialized
           ProviderExample.newCart
           (λ _, ProviderExample.partial) eq_refl).
Defined.


Lemma stored_cart_fetched_once_witness :
  CartProvider.renders
    [(Some "", Example.uninitialized); (Some "cart-1", Example.fetching);
     (Some "cart-1", Example.uninitialized);
     (Some "cart-2", Example.uninitialized)] false !! 2
  = Some (Some "cart-1")
  ∧ "cart-1" ≠ "".
Proof.
  assert (Hi : CartProvider.renders
                 [(Some "", Example.uninitialized);
                  (Some "cart-1", Example.fetching);
                  (Some "cart-1", Example.uninitialized);
                  (Some "cart-2", Example.uninitialized)] false !! 2
               = Some (Some "cart-1")) by reflexivity.
  split; [exact Hi|].
  exact (proj1 (proj2 (stored_cart_fetched_once _) 2 "cart-1" Hi)).
Defined.
